(** * DocxGenerator: the markdown-to-Word converter of [app.py]

    A shallow embedding of [DocxGenerator] (the class of [app.py] that turns
    the markdown-like text of the analysis step into a Word document) and of
    the pieces of Python it relies on: the [str] methods, a backtracking
    matcher for the three regular expressions of the class, [re.split],
    [re.match] and [re.sub].

    Characters are [ascii] values read as the code points 0..255 of a Python
    [str]; a text with code points above 255 is outside the model. *)

From Stdlib Require Import Strings.String Strings.Ascii Lists.List.
From Stdlib Require Import Arith.PeanoNat Bool.Bool Lia.
Import ListNotations.

Open Scope list_scope.
Open Scope string_scope.
Open Scope nat_scope.

(** The line feed, written ['\n'] in the source. *)
Definition LF : ascii := "010"%char.
Definition NL : string := String LF "".

(* ================================================================= *)
(** ** Python [str] methods *)

Module PyStr.

(** [c.isspace()] on code points 0..255: TAB..CR, FS..US, space, NEL and
    NBSP.  This is the set [str.strip()] removes. *)
Definition isspace (c : ascii) : bool :=
  let n := nat_of_ascii c in
  ((9 <=? n) && (n <=? 13)) || ((28 <=? n) && (n <=? 32))
  || (n =? 133) || (n =? 160).

(** [c.isdigit()] restricted to what [\d] accepts below code point 256. *)
Definition isdigit (c : ascii) : bool :=
  let n := nat_of_ascii c in (48 <=? n) && (n <=? 57).

(** [s.lstrip()] *)
Fixpoint lstrip (s : string) : string :=
  match s with
  | String c s' => if isspace c then lstrip s' else s
  | EmptyString => EmptyString
  end.

(** [s.rstrip()] *)
Fixpoint rstrip (s : string) : string :=
  match s with
  | String c s' =>
      match rstrip s' with
      | EmptyString => if isspace c then EmptyString else String c EmptyString
      | r => String c r
      end
  | EmptyString => EmptyString
  end.

(** [s.strip()] *)
Definition strip (s : string) : string := rstrip (lstrip s).

(** [s[n:]] for [0 <= n] *)
Fixpoint drop (n : nat) (s : string) : string :=
  match n, s with
  | S n', String _ s' => drop n' s'
  | _, _ => s
  end.

(** [s[:n]] for [0 <= n] *)
Fixpoint take (n : nat) (s : string) : string :=
  match n, s with
  | S n', String c s' => String c (take n' s')
  | _, _ => EmptyString
  end.

(** [s[a:-b]] for [0 <= a] and [0 < b]: the stop index is [len(s) - b],
    or 0 when that is negative; an empty range gives the empty string. *)
Definition slice_to_end_minus (a b : nat) (s : string) : string :=
  drop a (take (String.length s - b) s).

(** [s.startswith(p)] *)
Definition startswith (p s : string) : bool := String.prefix p s.

(** [s.endswith(p)] *)
Definition endswith (p s : string) : bool :=
  (String.length p <=? String.length s)
  && (drop (String.length s - String.length p) s =? p)%string.

(** [s.count(c)] for a one-character [c] *)
Fixpoint count (c : ascii) (s : string) : nat :=
  match s with
  | String d s' => (if Ascii.eqb d c then 1 else 0) + count c s'
  | EmptyString => 0
  end.

(** [s.replace(c, '')] for a one-character [c] *)
Fixpoint remove (c : ascii) (s : string) : string :=
  match s with
  | String d s' => if Ascii.eqb d c then remove c s' else String d (remove c s')
  | EmptyString => EmptyString
  end.

(** [s.split(c)] for a one-character separator: never empty. *)
Fixpoint split (c : ascii) (s : string) : list string :=
  match s with
  | String d s' =>
      if Ascii.eqb d c then EmptyString :: split c s'
      else match split c s' with
           | l :: ls => String d l :: ls
           | [] => [String d EmptyString]
           end
  | EmptyString => [EmptyString]
  end.

(** [sub in s] *)
Fixpoint contains (sub s : string) : bool :=
  String.prefix sub s
  || match s with
     | String _ s' => contains sub s'
     | EmptyString => false
     end.

(** Truth value of a [str] or [None]: [None] and [''] are false. *)
Definition truthy (o : option string) : bool :=
  match o with
  | Some s => negb (s =? "")%string
  | None => false
  end.

(** [s.index(sub)]: the first place [sub] occurs at; [None] stands for
    the [ValueError] of a [sub] that does not occur. *)
Fixpoint index (sub s : string) : option nat :=
  if String.prefix sub s then Some 0
  else match s with
       | String _ s' => option_map S (index sub s')
       | EmptyString => None
       end.

(** [s[a:b]] for [0 <= a] and [0 <= b] *)
Definition slice (a b : nat) (s : string) : string := take (b - a) (drop a s).

(** [s.replace(c, d)] for one-character [c] and [d] *)
Fixpoint replace_char (c d : ascii) (s : string) : string :=
  match s with
  | String x s' => String (if Ascii.eqb x c then d else x) (replace_char c d s')
  | EmptyString => EmptyString
  end.

(** [sep.join(l)] *)
Definition join (sep : string) (l : list string) : string :=
  String.concat sep l.

(** What [\w] accepts on code points 0..255: the digits, the letters, the
    underscore, and the characters above 127 that [str.isalnum] accepts. *)
Definition isword (c : ascii) : bool :=
  let n := nat_of_ascii c in
  ((48 <=? n) && (n <=? 57)) || ((65 <=? n) && (n <=? 90)) || (n =? 95)
  || ((97 <=? n) && (n <=? 122)) || (n =? 170) || (n =? 178) || (n =? 179)
  || (n =? 181) || (n =? 185) || (n =? 186)
  || ((188 <=? n) && (n <=? 190)) || ((192 <=? n) && (n <=? 214))
  || ((216 <=? n) && (n <=? 246)) || ((248 <=? n) && (n <=? 255)).

End PyStr.

(* ================================================================= *)
(** ** The fragment of [re] the class uses *)

Module Re.

(** A character class. *)
Inductive cls : Type :=
| Chr (c : ascii)     (** a literal character, as [#] or [\*] or [\.] *)
| AnyChar             (** [.]: anything but a line feed *)
| DigitChar.          (** [\d] *)

Definition cls_match (p : cls) (c : ascii) : bool :=
  match p with
  | Chr d => Ascii.eqb c d
  | AnyChar => negb (Ascii.eqb c LF)
  | DigitChar => PyStr.isdigit c
  end.

(** The items a pattern is a sequence of. *)
Inductive item : Type :=
| One (p : cls)       (** [p] *)
| Many (p : cls)      (** [p+], greedy *)
| ManyLazy (p : cls)  (** [p+?], lazy *)
| Bol                 (** [^] *)
| Eol.                (** [$] *)

Definition regex : Type := list item.

(** [^]: at the start of the string, and with [re.MULTILINE] after each
    line feed.  [prev] is the character before the current position. *)
Definition at_bol (multiline : bool) (prev : option ascii) : bool :=
  match prev with
  | None => true
  | Some c => multiline && Ascii.eqb c LF
  end.

(** [$]: at the end of the string or before a line feed that ends it, and
    with [re.MULTILINE] before each line feed. *)
Definition at_eol (multiline : bool) (s : string) : bool :=
  match s with
  | EmptyString => true
  | String c s' =>
      Ascii.eqb c LF
      && (multiline || match s' with EmptyString => true | _ => false end)
  end.

(** [p+] followed by the continuation [k]: take one [p], then prefer taking
    more, and fall back to [k] when that fails. *)
Fixpoint many_greedy (p : cls) (k : option ascii -> string -> option string)
    (s : string) : option string :=
  match s with
  | String c s' =>
      if cls_match p c then
        match many_greedy p k s' with
        | Some r => Some r
        | None => k (Some c) s'
        end
      else None
  | EmptyString => None
  end.

(** [p+?] followed by [k]: take one [p], then prefer [k], and take more
    when [k] fails. *)
Fixpoint many_lazy (p : cls) (k : option ascii -> string -> option string)
    (s : string) : option string :=
  match s with
  | String c s' =>
      if cls_match p c then
        match k (Some c) s' with
        | Some r => Some r
        | None => many_lazy p k s'
        end
      else None
  | EmptyString => None
  end.

(** The backtracking matcher: [run ml pat prev s] matches [pat] at the
    start of [s], where [prev] is the character before [s] in the whole
    string, and returns what is left of [s] after the first match in the
    engine's priority order. *)
Fixpoint run (multiline : bool) (pat : regex) (prev : option ascii)
    (s : string) : option string :=
  match pat with
  | [] => Some s
  | One p :: pat' =>
      match s with
      | String c s' =>
          if cls_match p c then run multiline pat' (Some c) s' else None
      | EmptyString => None
      end
  | Many p :: pat' => many_greedy p (run multiline pat') s
  | ManyLazy p :: pat' => many_lazy p (run multiline pat') s
  | Bol :: pat' =>
      if at_bol multiline prev then run multiline pat' prev s else None
  | Eol :: pat' =>
      if at_eol multiline s then run multiline pat' prev s else None
  end.

(** The last character before the position that follows [tok]. *)
Fixpoint last_char (prev : option ascii) (tok : string) : option ascii :=
  match tok with
  | String c tok' => last_char (Some c) tok'
  | EmptyString => prev
  end.

(** A match at the current position: the matched text and the rest. *)
Definition match_at (multiline : bool) (pat : regex) (prev : option ascii)
    (s : string) : option (string * string) :=
  match run multiline pat prev s with
  | Some rest =>
      Some (PyStr.take (String.length s - String.length rest) s, rest)
  | None => None
  end.

(** [re.match(pat, s)], as a truth value. *)
Definition re_match (multiline : bool) (pat : regex) (s : string) : bool :=
  match run multiline pat None s with
  | Some _ => true
  | None => false
  end.

(** The scan of [re.split] for a pattern that is one capturing group and
    matches no empty string: [pending] is the text since the last match.
    The fuel bounds the number of positions visited. *)
Fixpoint split_from (multiline : bool) (pat : regex) (fuel : nat)
    (prev : option ascii) (pending s : string) : list string :=
  match fuel with
  | O => [pending ++ s]
  | S fuel' =>
      match match_at multiline pat prev s with
      | Some (tok, rest) =>
          pending :: tok
          :: split_from multiline pat fuel' (last_char prev tok) "" rest
      | None =>
          match s with
          | String c s' =>
              split_from multiline pat fuel' (Some c)
                (pending ++ String c "") s'
          | EmptyString => [pending]
          end
      end
  end.

(** [re.split] on the pattern [pat] wrapped in one capturing group. *)
Definition re_split (multiline : bool) (pat : regex) (s : string)
    : list string :=
  split_from multiline pat (S (String.length s)) None "" s.

(** The scan of [re.sub(pat, '', s)], same conditions as [split_from]. *)
Fixpoint sub_from (multiline : bool) (pat : regex) (fuel : nat)
    (prev : option ascii) (s : string) : string :=
  match fuel with
  | O => s
  | S fuel' =>
      match match_at multiline pat prev s with
      | Some (tok, rest) =>
          sub_from multiline pat fuel' (last_char prev tok) rest
      | None =>
          match s with
          | String c s' => String c (sub_from multiline pat fuel' (Some c) s')
          | EmptyString => EmptyString
          end
      end
  end.

(** [re.sub(pat, '', s)] *)
Definition re_sub_empty (multiline : bool) (pat : regex) (s : string)
    : string :=
  sub_from multiline pat (S (String.length s)) None s.

End Re.

(* ================================================================= *)
(** ** The document model of python-docx, as far as the class uses it

    The document is the sequence of the blocks added to it.  What
    python-docx does with a block afterwards (styles, XML, the characters
    XML refuses) is outside the model. *)

(** A run of a paragraph: [add_run(text)] leaves [bold] unset, which
    renders as not bold; [run.bold = True] sets it. *)
Record Run : Type := mkRun { run_text : string; run_bold : bool }.

(** The paragraph styles the class asks for. *)
Inductive Style : Type := Normal | ListBullet | ListNumber.

(** The body of a document is a sequence of headings and paragraphs. *)
Inductive Block : Type :=
| Heading (level : nat) (text : string)
| Paragraph (style : Style) (runs : list Run).

(** [paragraph.add_run(text)] and [paragraph.add_run(text).bold = True] *)
Definition add_run (paragraph : list Run) (text : string) (bold : bool)
    : list Run :=
  (paragraph ++ [mkRun text bold])%list.

(* ================================================================= *)
(** ** [class DocxGenerator] *)

(** The two fields the methods touch: the document and the TOC cache. *)
Record DocxGenerator : Type := mkGen {
  doc : list Block;
  headings : list (nat * string)
}.

(** [__init__]: an empty document and an empty [headings] list. *)
Definition init : DocxGenerator := {| doc := []; headings := [] |}.

(** [self.doc.add_heading(text, level)] *)
Definition add_heading (self : DocxGenerator) (text : string) (level : nat)
    : DocxGenerator :=
  {| doc := (doc self ++ [Heading level text])%list; headings := headings self |}.

(** [p = self.doc.add_paragraph(style)] followed by the runs added to [p] *)
Definition add_paragraph (self : DocxGenerator) (style : Style)
    (runs : list Run) : DocxGenerator :=
  {| doc := (doc self ++ [Paragraph style runs])%list; headings := headings self |}.

(** [_add_heading_to_toc] *)
Definition _add_heading_to_toc (self : DocxGenerator) (level : nat)
    (text : string) : DocxGenerator :=
  if 1 <? level
  then {| doc := doc self; headings := (headings self ++ [(level, text)])%list |}
  else self.

(** The pattern [\*\*.+?\*\*] of [_process_text_segments], which the
    source wraps in one capturing group. *)
Definition bold_re : Re.regex :=
  [Re.One (Re.Chr "*"); Re.One (Re.Chr "*"); Re.ManyLazy Re.AnyChar;
   Re.One (Re.Chr "*"); Re.One (Re.Chr "*")].

(** The pattern [^#+.+$] of [markdown_to_word], in one capturing group and
    used with [re.MULTILINE]. *)
Definition heading_re : Re.regex :=
  [Re.Bol; Re.Many (Re.Chr "#"); Re.Many Re.AnyChar; Re.Eol].

(** The pattern [^\d+\. ] (it ends with a space) of the numbered items. *)
Definition numbered_re : Re.regex :=
  [Re.Bol; Re.Many Re.DigitChar; Re.One (Re.Chr "."); Re.One (Re.Chr " ")].

(** The body of the loop of [_process_text_segments]. *)
Definition process_segment (paragraph : list Run) (segment : string)
    : list Run :=
  if PyStr.startswith "**" segment && PyStr.endswith "**" segment
  then add_run paragraph (PyStr.slice_to_end_minus 2 2 segment) true
  else add_run paragraph segment false.

(** [_process_text_segments] *)
Definition _process_text_segments (paragraph : list Run) (text : string)
    : list Run :=
  fold_left process_segment (Re.re_split false bold_re text) paragraph.

(** [section.count('#')] *)
Definition heading_level (section : string) : nat := PyStr.count "#" section.

(** [section.replace('#', '').strip()] *)
Definition heading_text (section : string) : string :=
  PyStr.strip (PyStr.remove "#" section).

(** The heading branch of the loop of [markdown_to_word]; the state is
    [current_solution_heading] and [self]. *)
Definition process_heading (st : option string * DocxGenerator)
    (section : string) : option string * DocxGenerator :=
  let '(current_solution_heading, self) := st in
  let heading_level := heading_level section in
  let heading_text := heading_text section in
  let self := _add_heading_to_toc self heading_level heading_text in
  let adjusted_level := Nat.min heading_level 2 in
  if PyStr.contains "Solution" heading_text then
    (Some heading_text, add_heading self heading_text adjusted_level)
  else if PyStr.contains "How It Works" heading_text
          && PyStr.truthy current_solution_heading then
    (current_solution_heading, add_heading self heading_text 3)
  else
    (current_solution_heading, add_heading self heading_text adjusted_level).

(** The body of the loop over the lines of a body section. *)
Definition process_line (self : DocxGenerator) (line : string)
    : DocxGenerator :=
  if (PyStr.strip line =? "")%string then self
  else if PyStr.startswith "- " (PyStr.strip line) then
    add_paragraph self ListBullet (_process_text_segments [] (PyStr.drop 2 line))
  else if Re.re_match false numbered_re (PyStr.strip line) then
    add_paragraph self ListNumber
      (_process_text_segments [] (Re.re_sub_empty false numbered_re line))
  else
    add_paragraph self Normal (_process_text_segments [] line).

(** The body of the loop over the sections. *)
Definition process_section (st : option string * DocxGenerator)
    (section : string) : option string * DocxGenerator :=
  if (PyStr.strip section =? "")%string then st
  else if PyStr.startswith "#" section then process_heading st section
  else (fst st, fold_left process_line (PyStr.split LF section) (snd st)).

(** The sections [markdown_to_word] loops over. *)
Definition sections (markdown_text : string) : list string :=
  Re.re_split true heading_re markdown_text.

(** [markdown_to_word]: [current_solution_heading] starts as [None]. *)
Definition markdown_to_word (self : DocxGenerator) (markdown_text : string)
    : DocxGenerator :=
  snd (fold_left process_section (sections markdown_text) (None, self)).

(** The input of Example 1 of the specification. *)
Definition example1 : string :=
  "# Title" ++ NL ++ "## Solution" ++ NL ++ "This **changed**." ++ NL
  ++ "### How It Works" ++ NL ++ "- step one" ++ NL ++ "1. first".

(* ================================================================= *)
(** ** Notions the statements below use *)

(** A section takes the heading branch of [markdown_to_word] when it is not
    blank and starts with a hash. *)
Definition dispatched_as_heading (section : string) : bool :=
  negb (PyStr.strip section =? "")%string && PyStr.startswith "#" section.

(** The display level the heading branch passes to [add_heading]. *)
Definition display_level (current_solution_heading : option string)
    (section : string) : nat :=
  if PyStr.contains "Solution" (heading_text section) then
    Nat.min (heading_level section) 2
  else if PyStr.contains "How It Works" (heading_text section)
          && PyStr.truthy current_solution_heading then 3
  else Nat.min (heading_level section) 2.

(** The TOC entries a section contributes. *)
Definition toc_entries (section : string) : list (nat * string) :=
  if dispatched_as_heading section then
    if 1 <? heading_level section
    then [(heading_level section, heading_text section)]
    else []
  else [].

(** What a generator holds after [d] was appended to [g]. *)
Definition extend (g d : DocxGenerator) : DocxGenerator :=
  {| doc := (doc g ++ doc d)%list;
     headings := (headings g ++ headings d)%list |}.

(** The text of a paragraph: its runs, concatenated. *)
Definition runs_text (runs : list Run) : string :=
  String.concat "" (map run_text runs).



(** The nominal level in the specification's words: the count of the
    leading hashes of the heading line. *)
Fixpoint spec_nominal_level (line : string) : nat :=
  match line with
  | String c line' =>
      if Ascii.eqb c "#" then S (spec_nominal_level line') else 0
  | EmptyString => 0
  end.

(** The content of a bullet line in the specification's words: the line
    is left-trimmed, and the content is everything after the prefix. *)
Definition spec_bullet_content (line : string) : option string :=
  if PyStr.startswith "- " (PyStr.lstrip line)
  then Some (PyStr.drop 2 (PyStr.lstrip line))
  else None.

(** The bold rule in the specification's words: a token is bold when it
    starts and ends with the marker and has at least four characters. *)
Definition spec_bold_token (token : string) : bool :=
  PyStr.startswith "**" token && PyStr.endswith "**" token
  && (4 <=? String.length token).


(** The first line of [s], without its line feed. *)
Fixpoint line_head (s : string) : string :=
  match s with
  | String c s' => if Ascii.eqb c LF then "" else String c (line_head s')
  | EmptyString => ""
  end.

(** What follows the first line of [s]: empty, or from the line feed on. *)
Fixpoint line_rest (s : string) : string :=
  match s with
  | String c s' => if Ascii.eqb c LF then s else line_rest s'
  | EmptyString => ""
  end.

(** A line the heading pattern captures: it starts with a hash and has at
    least two characters. *)
Definition heading_line (line : string) : bool :=
  PyStr.startswith "#" line && (2 <=? String.length line).

(** A pattern with an item that takes a character matches no empty
    string. *)
Definition consuming (pat : Re.regex) : bool :=
  existsb (fun i => match i with
                    | Re.One _ | Re.Many _ | Re.ManyLazy _ => true
                    | Re.Bol | Re.Eol => false
                    end) pat.

(** A continuation [k] of the matcher answers with what is left of its input. *)
Definition returns_suffix (k : option ascii -> string -> option string)
    : Prop :=
  forall prev s r, k prev s = Some r -> exists tok, s = tok ++ r.

(** The scan of [re.split] from a position of the text, with the fuel the
    rest of the text needs. *)
Definition scan (multiline : bool) (pat : Re.regex) (prev : option ascii)
    (pending s : string) : list string :=
  Re.split_from multiline pat (S (String.length s)) prev pending s.

(** The scan of the sections from the end of a line. *)
Definition scan_eol (pending rest : string) : list string :=
  match rest with
  | String c r => scan true heading_re (Some c) (pending ++ String c "") r
  | EmptyString => [pending]
  end.

(** A display level python-docx and the specification accept. *)
Definition level_ok (b : Block) : Prop :=
  match b with
  | Heading level _ => 1 <= level <= 3
  | Paragraph _ _ => True
  end.

(* ================================================================= *)
(** ** Patterns with alternatives, for [re.search] *)

Module Rx.

(** The patterns [extract_relevant_code] needs: literal text, [p+], [^],
    sequences and alternatives. *)
Inductive rx : Type :=
| Text (s : string)
| Some1 (p : ascii -> bool)
| Start
| Seq (a b : rx)
| Alt (a b : rx).

(** [.]: anything but a line feed. *)
Definition dot (c : ascii) : bool := negb (Ascii.eqb c LF).

(** Literal text, then the continuation [k]. *)
Fixpoint text (lit : string) (k : option ascii -> string -> bool)
    (prev : option ascii) (s : string) : bool :=
  match lit with
  | EmptyString => k prev s
  | String c lit' =>
      match s with
      | String d s' => Ascii.eqb d c && text lit' k (Some d) s'
      | EmptyString => false
      end
  end.

(** [p+], then [k]: one [p], then more of them or [k]. *)
Fixpoint some1 (p : ascii -> bool) (k : option ascii -> string -> bool)
    (s : string) : bool :=
  match s with
  | String c s' => p c && (some1 p k s' || k (Some c) s')
  | EmptyString => false
  end.

(** Whether [r] followed by [k] matches at the start of [s]; without
    [re.MULTILINE], [^] holds at the start of the string only. *)
Fixpoint run (r : rx) (k : option ascii -> string -> bool)
    (prev : option ascii) (s : string) : bool :=
  match r with
  | Text lit => text lit k prev s
  | Some1 p => some1 p k s
  | Start => match prev with None => k prev s | Some _ => false end
  | Seq a b => run a (run b k) prev s
  | Alt a b => run a k prev s || run b k prev s
  end.

(** The scan of [re.search] over the start positions. *)
Fixpoint search_from (r : rx) (prev : option ascii) (s : string) : bool :=
  run r (fun _ _ => true) prev s
  || match s with
     | String c s' => search_from r (Some c) s'
     | EmptyString => false
     end.

(** [re.search(r, s)], as a truth value. *)
Definition re_search (r : rx) (s : string) : bool := search_from r None s.

End Rx.

(* ================================================================= *)
(** ** [extract_relevant_code] *)

(** The pattern of [extract_relevant_code]: [^], then one of
    [import .+], [from .+ import .+], [def \w+\(] and [class \w+:]. *)
Definition relevant_re : Rx.rx :=
  Rx.Seq Rx.Start
    (Rx.Alt (Rx.Seq (Rx.Text "import ") (Rx.Some1 Rx.dot))
       (Rx.Alt
          (Rx.Seq (Rx.Text "from ")
             (Rx.Seq (Rx.Some1 Rx.dot)
                (Rx.Seq (Rx.Text " import ") (Rx.Some1 Rx.dot))))
          (Rx.Alt
             (Rx.Seq (Rx.Text "def ")
                (Rx.Seq (Rx.Some1 PyStr.isword) (Rx.Text "(")))
             (Rx.Seq (Rx.Text "class ")
                (Rx.Seq (Rx.Some1 PyStr.isword) (Rx.Text ":")))))).

(** The body of the first loop: a line that matches is kept, and a line
    that does not is kept when the last kept entry has fewer than 5
    lines. *)
Definition relevant_step (relevant_lines : list string) (line : string)
    : list string :=
  if Rx.re_search relevant_re line then (relevant_lines ++ [line])%list
  else if negb (List.length relevant_lines =? 0)
          && (List.length (PyStr.split LF (last relevant_lines "")) <? 5)
  then (relevant_lines ++ [line])%list
  else relevant_lines.

(** The body of the second loop; [None] stands for an exception. *)
Definition context_step (full_code : string)
    (relevant_lines : option (list string)) (changed_line : string)
    : option (list string) :=
  match relevant_lines with
  | None => None
  | Some relevant_lines =>
      if negb (PyStr.strip changed_line =? "")%string
         && PyStr.contains changed_line full_code
      then
        match PyStr.index changed_line full_code with
        | Some idx =>
            let context :=
              PyStr.slice (idx - 200)
                (Nat.min (String.length full_code) (idx + 200)) full_code in
            Some (relevant_lines
                  ++ [(NL ++ "# Context for changes:" ++ NL ++ context)%string]
                 )%list
        | None => None
        end
      else Some relevant_lines
  end.

(** The [try] block of [extract_relevant_code]. *)
Definition extract_relevant_code_body (full_code changed_code : string)
    : option string :=
  let relevant_lines :=
    fold_left relevant_step (PyStr.split LF full_code) [] in
  match fold_left (context_step full_code)
          (firstn 10 (PyStr.split LF changed_code)) (Some relevant_lines) with
  | Some relevant_lines => Some (PyStr.join NL (firstn 5000 relevant_lines))
  | None => None
  end.

(** [extract_relevant_code]: the [except] branch gives the first 5000
    characters of [full_code]. *)
Definition extract_relevant_code (full_code changed_code : string)
    : string :=
  match extract_relevant_code_body full_code changed_code with
  | Some result => result
  | None => PyStr.take 5000 full_code
  end.

(* ================================================================= *)
(** ** The document the application builds *)

(** [self.doc.add_paragraph(text)]: python-docx adds the text as one run,
    and no run for the empty text. *)
Definition add_text_paragraph (self : DocxGenerator) (text : string)
    : DocxGenerator :=
  add_paragraph self Normal
    (if (text =? "")%string then [] else add_run [] text false).

(** The document of the button handler: the user story, then the
    analysis [result] through [markdown_to_word]. *)
Definition build_document
    (user_story_name user_story_description additional_prompt result : string)
    : DocxGenerator :=
  let doc_generator := init in
  let doc_generator := add_heading doc_generator "User Story Name" 2 in
  let doc_generator := add_text_paragraph doc_generator user_story_name in
  let doc_generator :=
    if negb (user_story_description =? "")%string then
      add_text_paragraph
        (add_heading doc_generator "User Story Description" 2)
        user_story_description
    else doc_generator in
  let doc_generator :=
    if negb (PyStr.strip additional_prompt =? "")%string then
      add_text_paragraph
        (add_heading doc_generator "Additional Context & Instructions" 2)
        additional_prompt
    else doc_generator in
  markdown_to_word doc_generator result.

(** The name of the file offered for download. *)
Definition download_file_name (user_story_name : string) : string :=
  PyStr.replace_char " " "_"
    (if (user_story_name =? "")%string then "code_analysis"
     else user_story_name)
  ++ ".docx".

(* ================================================================= *)
(** ** Notions the further statements use *)

(** One line of the text, as [markdown_to_word] treats it: a heading line
    takes the heading branch, any other line the body branch. *)
Definition process_text_line (st : option string * DocxGenerator)
    (line : string) : option string * DocxGenerator :=
  if heading_line line then process_heading st line
  else (fst st, process_line (snd st) line).

(** The body branch of the loop over the sections. *)
Definition process_body (st : option string * DocxGenerator)
    (section : string) : option string * DocxGenerator :=
  (fst st, fold_left process_line (PyStr.split LF section) (snd st)).

(** A text made of white space only. *)
Fixpoint all_space (s : string) : bool :=
  match s with
  | String c s' => PyStr.isspace c && all_space s'
  | EmptyString => true
  end.

(** An entry of the TOC has a level of 2 or more and its heading in the
    document, at display level 2 or 3. *)
Definition toc_entry_in (blocks : list Block) (e : nat * string) : Prop :=
  2 <= fst e
  /\ exists level,
       (level = 2 \/ level = 3) /\ In (Heading level (snd e)) blocks.

(** Every character of [s] satisfies [p]. *)
Fixpoint all_chars (p : ascii -> bool) (s : string) : bool :=
  match s with
  | String c s' => p c && all_chars p s'
  | EmptyString => true
  end.

(** A line the pattern of [extract_relevant_code] is written for: an
    import, a from-import, a function definition or a class definition
    at the start of the line. *)
Definition relevant_line (line : string) : Prop :=
  (exists c r, line = "import " ++ String c r /\ c <> LF)
  \/ (exists a c r,
        line = "from " ++ a ++ " import " ++ String c r
        /\ a <> "" /\ PyStr.count LF a = 0 /\ c <> LF)
  \/ (exists w r,
        line = "def " ++ w ++ "(" ++ r
        /\ w <> "" /\ all_chars PyStr.isword w = true)
  \/ (exists w r,
        line = "class " ++ w ++ ":" ++ r
        /\ w <> "" /\ all_chars PyStr.isword w = true).

(** An entry the second loop of [extract_relevant_code] appends: the
    header, then at most 400 characters that stand together in
    [full_code]. *)
Definition context_entry (full_code entry : string) : Prop :=
  exists context,
    entry = NL ++ "# Context for changes:" ++ NL ++ context
    /\ String.length context <= 400
    /\ exists before after, full_code = before ++ context ++ after.

(** A line that is not blank. *)
Definition nonblank (line : string) : bool :=
  negb (PyStr.strip line =? "")%string.

(** The lines from the first one that satisfies [f] on. *)
Fixpoint from_first {A : Type} (f : A -> bool) (l : list A) : list A :=
  match l with
  | x :: l' => if f x then l else from_first f l'
  | [] => []
  end.

(* ================================================================= *)
(** ** The examples of the specification *)

Section SpecExamples.

Example example1_sections :
  sections example1
  = [""; "# Title"; NL; "## Solution"; NL ++ "This **changed**." ++ NL;
     "### How It Works"; NL ++ "- step one" ++ NL ++ "1. first"].
Proof. reflexivity. Qed.

Example example1_conversion :
  markdown_to_word init example1
  = {| doc := [Heading 1 "Title"; Heading 2 "Solution";
               Paragraph Normal
                 [mkRun "This " false; mkRun "changed" true; mkRun "." false];
               Heading 3 "How It Works";
               Paragraph ListBullet [mkRun "step one" false];
               Paragraph ListNumber [mkRun "first" false]];
       headings := [(2, "Solution"); (3, "How It Works")] |}.
Proof. reflexivity. Qed.

Example example2_conversion :
  markdown_to_word init "**unterminated bold"
  = {| doc := [Paragraph Normal [mkRun "**unterminated bold" false]];
       headings := [] |}.
Proof. reflexivity. Qed.

Example example3_conversion : markdown_to_word init "" = init.
Proof. reflexivity. Qed.

(** The hashes of a line give back one character to [.+]. *)
Example hashes_only_line :
  markdown_to_word init "###"
  = {| doc := [Heading 2 ""]; headings := [(3, "")] |}.
Proof. reflexivity. Qed.

(** The lazy [.+?] stops at the first closing marker. *)
Example bold_tokens :
  Re.re_split false bold_re "a**b**c****d***e** **"
  = ["a"; "**b**"; "c"; "****d**"; "*e"; "** **"; ""].
Proof. reflexivity. Qed.

End SpecExamples.

(* ================================================================= *)
(** ** Appending to a generator *)

Section Extend.

Lemma extend_init_r (g : DocxGenerator) : extend g init = g.
Proof. destruct g; unfold extend; simpl; now rewrite !app_nil_r. Qed.

Lemma extend_init_l (g : DocxGenerator) : extend init g = g.
Proof. now destruct g. Qed.

Lemma extend_assoc (a b c : DocxGenerator) :
  extend (extend a b) c = extend a (extend b c).
Proof. unfold extend; simpl; now rewrite !app_assoc. Qed.

Lemma add_heading_extend (g : DocxGenerator) text level :
  add_heading g text level = extend g (add_heading init text level).
Proof. unfold add_heading, extend; simpl; now rewrite app_nil_r. Qed.

Lemma add_paragraph_extend (g : DocxGenerator) style runs :
  add_paragraph g style runs = extend g (add_paragraph init style runs).
Proof. unfold add_paragraph, extend; simpl; now rewrite app_nil_r. Qed.

Lemma add_heading_to_toc_extend (g : DocxGenerator) level text :
  _add_heading_to_toc g level text
  = extend g (_add_heading_to_toc init level text).
Proof.
  unfold _add_heading_to_toc, extend.
  destruct (1 <? level); simpl; rewrite ?app_nil_r; now destruct g.
Qed.

End Extend.

(* ================================================================= *)
(** ** One step of the loops, as an extension of the generator *)

Section Steps.

(** What the heading branch does, in one equation. *)
Lemma process_heading_eq csh g section :
  process_heading (csh, g) section
  = (if PyStr.contains "Solution" (heading_text section)
     then Some (heading_text section) else csh,
     extend g
       {| doc := [Heading (display_level csh section) (heading_text section)];
          headings := if 1 <? heading_level section
                      then [(heading_level section, heading_text section)]
                      else [] |}).
Proof.
  unfold process_heading, display_level, _add_heading_to_toc, add_heading,
    extend.
  destruct (PyStr.contains "Solution" (heading_text section));
    [| destruct (PyStr.contains "How It Works" (heading_text section)
                 && PyStr.truthy csh) ];
    destruct (1 <? heading_level section); simpl; now rewrite ?app_nil_r.
Qed.

Lemma process_line_extend g line :
  process_line g line = extend g (process_line init line).
Proof.
  unfold process_line.
  destruct (PyStr.strip line =? "")%string;
    [ now rewrite extend_init_r |].
  destruct (PyStr.startswith "- " (PyStr.strip line));
    [ apply add_paragraph_extend |].
  destruct (Re.re_match false numbered_re (PyStr.strip line));
    apply add_paragraph_extend.
Qed.

Lemma fold_process_line_extend lines : forall g,
  fold_left process_line lines g
  = extend g (fold_left process_line lines init).
Proof.
  induction lines as [| line lines IH]; intro g; simpl.
  - now rewrite extend_init_r.
  - rewrite IH, (IH (process_line init line)), <- extend_assoc.
    now rewrite <- process_line_extend.
Qed.

(** A line never touches the TOC. *)
Lemma process_line_headings g line :
  headings (process_line g line) = headings g.
Proof.
  unfold process_line.
  destruct (PyStr.strip line =? "")%string; [ reflexivity |].
  destruct (PyStr.startswith "- " (PyStr.strip line)); [ reflexivity |].
  now destruct (Re.re_match false numbered_re (PyStr.strip line)).
Qed.

Lemma fold_process_line_headings lines : forall g,
  headings (fold_left process_line lines g) = headings g.
Proof.
  induction lines as [| line lines IH]; intro g; simpl; [ reflexivity |].
  now rewrite IH, process_line_headings.
Qed.

(** A line appends paragraphs only. *)
Lemma process_line_level_ok g line :
  Forall level_ok (doc g) -> Forall level_ok (doc (process_line g line)).
Proof.
  intro H. unfold process_line.
  destruct (PyStr.strip line =? "")%string; [ exact H |].
  destruct (PyStr.startswith "- " (PyStr.strip line));
    [| destruct (Re.re_match false numbered_re (PyStr.strip line)) ];
    simpl; apply Forall_app; split; auto; repeat constructor.
Qed.

Lemma fold_process_line_level_ok lines : forall g,
  Forall level_ok (doc g) ->
  Forall level_ok (doc (fold_left process_line lines g)).
Proof.
  induction lines as [| line lines IH]; intros g H; simpl; [ exact H |].
  now apply IH, process_line_level_ok.
Qed.

(** The state after a section does not depend on the generator, and the
    generator is extended by what the section gives on a new one. *)
Lemma process_section_extend csh g section :
  process_section (csh, g) section
  = (fst (process_section (csh, init) section),
     extend g (snd (process_section (csh, init) section))).
Proof.
  unfold process_section.
  destruct (PyStr.strip section =? "")%string; cbn [fst snd];
    [ now rewrite extend_init_r |].
  destruct (PyStr.startswith "#" section); cbn [fst snd].
  - rewrite !process_heading_eq; cbn [fst snd]. now rewrite extend_init_l.
  - now rewrite fold_process_line_extend.
Qed.

Lemma fold_process_section_extend secs : forall csh g,
  fold_left process_section secs (csh, g)
  = (fst (fold_left process_section secs (csh, init)),
     extend g (snd (fold_left process_section secs (csh, init)))).
Proof.
  induction secs as [| section secs IH]; intros csh g; simpl.
  - now rewrite extend_init_r.
  - rewrite (process_section_extend csh g).
    rewrite IH.
    destruct (process_section (csh, init) section) as [csh' d] eqn:E; simpl.
    rewrite (IH csh' d); simpl. now rewrite extend_assoc.
Qed.

(** The TOC entries a section appends. *)
Lemma process_section_headings csh g section :
  headings (snd (process_section (csh, g) section))
  = (headings g ++ toc_entries section)%list.
Proof.
  unfold process_section, toc_entries, dispatched_as_heading.
  destruct (PyStr.strip section =? "")%string; cbn [negb andb fst snd];
    [ now rewrite app_nil_r |].
  destruct (PyStr.startswith "#" section); cbn [fst snd].
  - now rewrite process_heading_eq.
  - now rewrite fold_process_line_headings, app_nil_r.
Qed.

Lemma fold_process_section_headings secs : forall csh g,
  headings (snd (fold_left process_section secs (csh, g)))
  = (headings g ++ flat_map toc_entries secs)%list.
Proof.
  induction secs as [| section secs IH]; intros csh g; simpl.
  - now rewrite app_nil_r.
  - destruct (process_section (csh, g) section) as [csh' g'] eqn:E.
    rewrite IH.
    replace g' with (snd (process_section (csh, g) section))
      by now rewrite E.
    now rewrite process_section_headings, app_assoc.
Qed.

End Steps.

(* ================================================================= *)
(** ** The state [current_solution_heading] along a conversion *)

Section ParseState.

Lemma contains_nonempty sub s :
  sub <> "" -> PyStr.contains sub s = true -> s <> "".
Proof.
  intros Hsub H ->. destruct sub as [| c sub]; [ now apply Hsub |].
  discriminate H.
Qed.

(** A heading with "Solution" in its text is recorded, at the default
    display level, whatever else its text holds. *)
Lemma solution_heading_step csh g section :
  PyStr.contains "Solution" (heading_text section) = true ->
  fst (process_heading (csh, g) section) = Some (heading_text section)
  /\ PyStr.truthy (fst (process_heading (csh, g) section)) = true
  /\ display_level csh section = Nat.min (heading_level section) 2.
Proof.
  intro H. rewrite process_heading_eq. unfold display_level.
  rewrite H; cbn [fst]. repeat split. unfold PyStr.truthy.
  apply negb_true_iff, String.eqb_neq.
  now apply (contains_nonempty "Solution").
Qed.

(** A later "How It Works" heading is forced to level 3. *)
Lemma how_it_works_step csh section :
  PyStr.contains "Solution" (heading_text section) = false ->
  PyStr.contains "How It Works" (heading_text section) = true ->
  PyStr.truthy csh = true ->
  display_level csh section = 3.
Proof.
  intros H1 H2 H3. unfold display_level. now rewrite H1, H2, H3.
Qed.

(** Once set, the state stays set to the end of the conversion. *)
Lemma process_section_truthy csh g section :
  PyStr.truthy csh = true ->
  PyStr.truthy (fst (process_section (csh, g) section)) = true.
Proof.
  intro H. unfold process_section.
  destruct (PyStr.strip section =? "")%string; [ exact H |].
  destruct (PyStr.startswith "#" section); [| exact H ].
  destruct (PyStr.contains "Solution" (heading_text section)) eqn:E.
  - now apply solution_heading_step.
  - rewrite process_heading_eq, E. exact H.
Qed.

Lemma fold_process_section_truthy secs : forall csh g,
  PyStr.truthy csh = true ->
  PyStr.truthy (fst (fold_left process_section secs (csh, g))) = true.
Proof.
  induction secs as [| section secs IH]; intros csh g H; simpl; [ exact H |].
  destruct (process_section (csh, g) section) as [csh' g'] eqn:E.
  apply IH. replace csh' with (fst (process_section (csh, g) section))
    by now rewrite E.
  now apply process_section_truthy.
Qed.

(** A section dispatched as a heading appends one heading block. *)
Lemma process_section_heading csh g section :
  dispatched_as_heading section = true ->
  process_section (csh, g) section = process_heading (csh, g) section.
Proof.
  unfold dispatched_as_heading, process_section. intro H.
  apply andb_true_iff in H as [H1 H2].
  apply negb_true_iff in H1. now rewrite H1, H2.
Qed.

End ParseState.

(* ================================================================= *)
(** ** Display levels *)

Section Levels.

Lemma startswith_hash_level section :
  PyStr.startswith "#" section = true -> 1 <= heading_level section.
Proof.
  destruct section as [| c s]; [ discriminate |].
  unfold PyStr.startswith, heading_level; cbn [String.prefix PyStr.count].
  destruct (ascii_dec "#" c) as [<- | n]; [ cbn; lia |].
  intro H. discriminate H.
Qed.

Lemma display_level_cases csh section :
  display_level csh section = Nat.min (heading_level section) 2
  \/ (display_level csh section = 3
      /\ PyStr.contains "Solution" (heading_text section) = false
      /\ PyStr.contains "How It Works" (heading_text section) = true
      /\ PyStr.truthy csh = true).
Proof.
  unfold display_level.
  destruct (PyStr.contains "Solution" (heading_text section)); [ now left |].
  destruct (PyStr.contains "How It Works" (heading_text section));
    [| now left ].
  destruct (PyStr.truthy csh); [ now right | now left ].
Qed.

Lemma display_level_range csh section :
  PyStr.startswith "#" section = true ->
  1 <= display_level csh section <= 3.
Proof.
  intro H. apply startswith_hash_level in H.
  destruct (display_level_cases csh section) as [-> | [-> _]]; lia.
Qed.

Lemma process_section_level_ok csh g section :
  Forall level_ok (doc g) ->
  Forall level_ok (doc (snd (process_section (csh, g) section))).
Proof.
  intro H. unfold process_section.
  destruct (PyStr.strip section =? "")%string; [ exact H |].
  destruct (PyStr.startswith "#" section) eqn:E; cbn [fst snd].
  - rewrite process_heading_eq; cbn [snd extend doc].
    apply Forall_app; split; [ exact H |].
    constructor; [| constructor ]. now apply display_level_range.
  - now apply fold_process_line_level_ok.
Qed.

Lemma fold_process_section_level_ok secs : forall csh g,
  Forall level_ok (doc g) ->
  Forall level_ok (doc (snd (fold_left process_section secs (csh, g)))).
Proof.
  induction secs as [| section secs IH]; intros csh g H; simpl; [ exact H |].
  destruct (process_section (csh, g) section) as [csh' g'] eqn:E.
  apply IH. replace g' with (snd (process_section (csh, g) section))
    by now rewrite E.
  now apply process_section_level_ok.
Qed.

End Levels.

(* ================================================================= *)
(** ** Strings *)

Section Strings.

Lemma append_nil_r (s : string) : s ++ "" = s.
Proof. induction s as [| c s IH]; simpl; congruence. Qed.

Lemma append_assoc (a b c : string) : (a ++ b) ++ c = a ++ (b ++ c).
Proof. induction a as [| x a IH]; simpl; congruence. Qed.

Lemma length_append (a b : string) :
  String.length (a ++ b) = String.length a + String.length b.
Proof. induction a as [| x a IH]; simpl; congruence. Qed.

Lemma take_append (a b : string) : PyStr.take (String.length a) (a ++ b) = a.
Proof. induction a as [| x a IH]; simpl; [ now destruct b | congruence ]. Qed.

Lemma concat_cons (x : string) (l : list string) :
  String.concat "" (x :: l) = x ++ String.concat "" l.
Proof. destruct l; simpl; [ now rewrite append_nil_r | reflexivity ]. Qed.

Lemma line_head_rest (s : string) : line_head s ++ line_rest s = s.
Proof.
  induction s as [| c s IH]; simpl; [ reflexivity |].
  destruct (Ascii.eqb c LF); simpl; congruence.
Qed.

Lemma line_head_of_rest (s : string) : line_head (line_rest s) = "".
Proof.
  induction s as [| c s IH]; simpl; [ reflexivity |].
  destruct (Ascii.eqb c LF) eqn:E; simpl; [ now rewrite E | exact IH ].
Qed.

Lemma line_rest_of_rest (s : string) : line_rest (line_rest s) = line_rest s.
Proof.
  induction s as [| c s IH]; simpl; [ reflexivity |].
  destruct (Ascii.eqb c LF) eqn:E; simpl; [ now rewrite E | exact IH ].
Qed.

(** What follows a line is empty or starts with the line feed. *)
Lemma line_rest_cases (s : string) :
  line_rest s = "" \/ exists r, line_rest s = String LF r.
Proof.
  induction s as [| c s IH]; simpl; [ now left |].
  destruct (Ascii.eqb_spec c LF) as [-> | _]; [ right; now exists s | exact IH ].
Qed.

Lemma line_rest_length (s : string) :
  String.length (line_rest s) <= String.length s.
Proof.
  induction s as [| c s IH]; simpl; [ lia |].
  destruct (Ascii.eqb c LF); simpl; lia.
Qed.

(** The lines of a text: its first line, then the lines of what follows
    the line feed. *)
Lemma split_lines (s : string) :
  PyStr.split LF s
  = line_head s :: match line_rest s with
                   | String _ r => PyStr.split LF r
                   | EmptyString => []
                   end.
Proof.
  induction s as [| c s IH]; simpl; [ reflexivity |].
  destruct (Ascii.eqb c LF); [ reflexivity |].
  now rewrite IH.
Qed.

Lemma split_no_separator (c : ascii) (s : string) :
  Forall (fun l => PyStr.count c l = 0) (PyStr.split c s).
Proof.
  induction s as [| d s IH]; simpl; [ now repeat constructor |].
  destruct (Ascii.eqb d c) eqn:E; [ now constructor |].
  destruct (PyStr.split c s) as [| l ls]; [ constructor; simpl; now rewrite ?E |].
  inversion IH; subst. constructor; [ simpl; now rewrite E | assumption ].
Qed.

(** A text that starts with a hash is not blank. *)
Lemma startswith_hash_not_blank (s : string) :
  PyStr.startswith "#" s = true -> (PyStr.strip s =? "")%string = false.
Proof.
  destruct s as [| c s]; [ discriminate |].
  unfold PyStr.startswith; cbn [String.prefix].
  destruct (ascii_dec "#" c) as [<- | n]; [| discriminate ].
  intros _. unfold PyStr.strip. cbn [PyStr.lstrip].
  change (PyStr.isspace "#") with false. cbn [PyStr.rstrip].
  now destruct (PyStr.rstrip s).
Qed.

End Strings.

(* ================================================================= *)
(** ** The matcher returns a suffix of its input *)

Section Matcher.

Variable multiline : bool.

Lemma many_greedy_suffix p k :
  returns_suffix k ->
  forall s r, Re.many_greedy p k s = Some r ->
  exists tok, s = tok ++ r /\ tok <> "".
Proof.
  intros Hk s. induction s as [| c s IH]; intros r H; simpl in H;
    [ discriminate |].
  destruct (Re.cls_match p c); [| discriminate ].
  destruct (Re.many_greedy p k s) as [r' |] eqn:E.
  - injection H as ->. destruct (IH r eq_refl) as [tok [-> _]].
    now exists (String c tok).
  - apply Hk in H as [tok ->]. now exists (String c tok).
Qed.

Lemma many_lazy_suffix p k :
  returns_suffix k ->
  forall s r, Re.many_lazy p k s = Some r ->
  exists tok, s = tok ++ r /\ tok <> "".
Proof.
  intros Hk s. induction s as [| c s IH]; intros r H; simpl in H;
    [ discriminate |].
  destruct (Re.cls_match p c); [| discriminate ].
  destruct (k (Some c) s) as [r' |] eqn:E.
  - injection H as ->. apply Hk in E as [tok ->]. now exists (String c tok).
  - destruct (IH r H) as [tok [-> _]]. now exists (String c tok).
Qed.

(** A match is a prefix of the input, and it is not empty when the
    pattern takes a character. *)
Lemma run_suffix pat : forall prev s r,
  Re.run multiline pat prev s = Some r ->
  exists tok, s = tok ++ r /\ (consuming pat = true -> tok <> "").
Proof.
  induction pat as [| i pat IH]; intros prev s r H.
  - injection H as ->. exists "". split; [ reflexivity | discriminate ].
  - assert (Hk : returns_suffix (Re.run multiline pat)).
    { intros q t u Hq. destruct (IH q t u Hq) as [tok [-> _]]. now exists tok. }
    destruct i as [p | p | p | |]; cbn [Re.run] in H.
    + destruct s as [| c s]; [ discriminate |].
      destruct (Re.cls_match p c); [| discriminate ].
      destruct (IH _ _ _ H) as [tok [-> _]].
      exists (String c tok). split; [ reflexivity | discriminate ].
    + destruct (many_greedy_suffix p _ Hk s r H) as [tok [-> Hne]].
      now exists tok.
    + destruct (many_lazy_suffix p _ Hk s r H) as [tok [-> Hne]].
      now exists tok.
    + destruct (Re.at_bol multiline prev); [| discriminate ].
      destruct (IH _ _ _ H) as [tok [-> Hne]]. now exists tok.
    + destruct (Re.at_eol multiline s); [| discriminate ].
      destruct (IH _ _ _ H) as [tok [-> Hne]]. now exists tok.
Qed.

Lemma match_at_sound pat prev s tok rest :
  Re.match_at multiline pat prev s = Some (tok, rest) ->
  s = tok ++ rest /\ (consuming pat = true -> tok <> "").
Proof.
  unfold Re.match_at.
  destruct (Re.run multiline pat prev s) as [r |] eqn:E; [| discriminate ].
  intro H; injection H as <- <-.
  destruct (run_suffix _ _ _ _ E) as [t [-> Hne]].
  rewrite length_append, Nat.add_sub, take_append. now split.
Qed.

Lemma match_at_shorter pat prev s tok rest :
  consuming pat = true ->
  Re.match_at multiline pat prev s = Some (tok, rest) ->
  String.length rest < String.length s.
Proof.
  intros Hc H. apply match_at_sound in H as [-> Hne].
  rewrite length_append. destruct tok; [ now elim (Hne Hc) | simpl; lia ].
Qed.

(** The pieces of a split, concatenated, give the text back. *)
Lemma split_from_concat pat fuel : forall prev pending s,
  String.concat "" (Re.split_from multiline pat fuel prev pending s)
  = pending ++ s.
Proof.
  induction fuel as [| fuel IH]; intros prev pending s; [ reflexivity |].
  cbn [Re.split_from].
  destruct (Re.match_at multiline pat prev s) as [[tok rest] |] eqn:E.
  - rewrite !concat_cons, IH. apply match_at_sound in E as [-> _].
    reflexivity.
  - destruct s as [| c s]; [ now rewrite append_nil_r |].
    rewrite IH, append_assoc. reflexivity.
Qed.


(** More fuel than the text is long changes nothing. *)
Lemma split_from_fuel pat :
  consuming pat = true ->
  forall n m prev pending s,
    String.length s < n -> String.length s < m ->
    Re.split_from multiline pat n prev pending s
    = Re.split_from multiline pat m prev pending s.
Proof.
  intro Hc. induction n as [| n IH]; intros m prev pending s Hn Hm;
    [ lia |].
  destruct m as [| m]; [ lia |]. cbn [Re.split_from].
  destruct (Re.match_at multiline pat prev s) as [[tok rest] |] eqn:E.
  - apply match_at_shorter in E; [| exact Hc ].
    do 2 f_equal. apply IH; lia.
  - destruct s as [| c s]; [ reflexivity |].
    simpl in Hn, Hm. apply IH; lia.
Qed.

(** The scan, one position at a time. *)
Lemma scan_eq pat prev pending s :
  consuming pat = true ->
  scan multiline pat prev pending s
  = match Re.match_at multiline pat prev s with
    | Some (tok, rest) =>
        pending :: tok :: scan multiline pat (Re.last_char prev tok) "" rest
    | None =>
        match s with
        | String c s' =>
            scan multiline pat (Some c) (pending ++ String c "") s'
        | EmptyString => [pending]
        end
    end.
Proof.
  intro Hc. unfold scan at 1. cbn [Re.split_from].
  destruct (Re.match_at multiline pat prev s) as [[tok rest] |] eqn:E.
  - apply match_at_shorter in E; [| exact Hc ].
    do 2 f_equal. apply split_from_fuel; [ exact Hc | lia | lia ].
  - destruct s as [| c s]; reflexivity.
Qed.

(** The same for the scan of [re.sub]. *)
Lemma sub_from_fuel pat :
  consuming pat = true ->
  forall n m prev s,
    String.length s < n -> String.length s < m ->
    Re.sub_from multiline pat n prev s = Re.sub_from multiline pat m prev s.
Proof.
  intro Hc. induction n as [| n IH]; intros m prev s Hn Hm; [ lia |].
  destruct m as [| m]; [ lia |]. cbn [Re.sub_from].
  destruct (Re.match_at multiline pat prev s) as [[tok rest] |] eqn:E.
  - apply match_at_shorter in E; [| exact Hc ]. apply IH; lia.
  - destruct s as [| c s]; [ reflexivity |].
    simpl in Hn, Hm. f_equal. apply IH; lia.
Qed.

End Matcher.

(** The three patterns of the class match no empty string, so the fuel
    of their scans is never used up. *)
Lemma patterns_consuming :
  consuming bold_re = true /\ consuming heading_re = true
  /\ consuming numbered_re = true.
Proof. repeat split. Qed.

(** X12: the tokens of [_process_text_segments], concatenated, give the content
    back: the split drops nothing. *)
Lemma bold_tokens_concat (text : string) :
  String.concat "" (Re.re_split false bold_re text) = text.
Proof. unfold Re.re_split. now rewrite split_from_concat. Qed.

(* ================================================================= *)
(** ** The heading pattern *)

Section HeadingPattern.

Lemma heading_re_consuming : consuming heading_re = true.
Proof. reflexivity. Qed.

(** [.+$]: the rest of the line, when there is one. *)
Lemma dots_to_eol (s : string) :
  Re.many_greedy Re.AnyChar (Re.run true [Re.Eol]) s
  = match line_head s with
    | String _ _ => Some (line_rest s)
    | EmptyString => None
    end.
Proof.
  induction s as [| c s IH]; cbn [Re.many_greedy line_head line_rest];
    [ reflexivity |].
  cbn [Re.cls_match]. destruct (Ascii.eqb c LF); cbn [negb]; [ reflexivity |].
  rewrite IH. destruct (line_head s) eqn:E; [| reflexivity ].
  destruct s as [| d s]; [ reflexivity |].
  cbn [line_head] in E. cbn [line_rest Re.run Re.at_eol].
  destruct (Ascii.eqb d LF); [ reflexivity | discriminate ].
Qed.

Lemma heading_line_hash (l : string) :
  heading_line (String "#" l) = match l with "" => false | _ => true end.
Proof.
  unfold heading_line, PyStr.startswith. cbn [String.prefix String.length].
  destruct (ascii_dec "#" "#") as [_ | n]; [| now elim n ].
  destruct l; reflexivity.
Qed.

(** [#+.+$]: a line that starts with a hash and has a second character;
    the hashes give back one character when the line is made of hashes. *)
Lemma hashes_dots_to_eol (s : string) :
  Re.many_greedy (Re.Chr "#") (Re.run true [Re.Many Re.AnyChar; Re.Eol]) s
  = if heading_line (line_head s) then Some (line_rest s) else None.
Proof.
  induction s as [| c s IH];
    cbn [Re.many_greedy line_head line_rest Re.cls_match]; [ reflexivity |].
  destruct (Ascii.eqb_spec c "#") as [-> | n].
  - change (Ascii.eqb "#" LF) with false. cbv iota. rewrite IH.
    rewrite heading_line_hash.
    destruct (heading_line (line_head s)) eqn:H.
    + destruct (line_head s); [ discriminate H | reflexivity ].
    + cbn [Re.run]. rewrite dots_to_eol. now destruct (line_head s).
  - unfold heading_line, PyStr.startswith.
    destruct (Ascii.eqb c LF); [ reflexivity |].
    cbn [String.prefix]. destruct (ascii_dec "#" c) as [e | _];
      [ now elim n | reflexivity ].
Qed.

Lemma line_head_length (s : string) :
  String.length s - String.length (line_rest s) = String.length (line_head s).
Proof.
  rewrite <- (line_head_rest s) at 1. rewrite length_append. lia.
Qed.

(** A match of the heading pattern: at the start of a line, the whole
    line, when it is a heading line. *)
Lemma heading_match_at prev s :
  Re.match_at true heading_re prev s
  = if Re.at_bol true prev && heading_line (line_head s)
    then Some (line_head s, line_rest s) else None.
Proof.
  unfold Re.match_at, heading_re. cbn [Re.run].
  destruct (Re.at_bol true prev); [| reflexivity ].
  rewrite hashes_dots_to_eol.
  destruct (heading_line (line_head s)); [| reflexivity ].
  cbn [andb]. rewrite line_head_length.
  rewrite <- (line_head_rest s) at 2. now rewrite take_append.
Qed.

(** After a character that is no line feed, the next is not at the start
    of a line. *)
Lemma last_char_not_bol prev (l : string) :
  PyStr.count LF l = 0 ->
  Re.at_bol true prev = false \/ l <> "" ->
  Re.at_bol true (Re.last_char prev l) = false.
Proof.
  revert prev. induction l as [| c l IH]; intros prev Hc H.
  - destruct H as [H | H]; [ exact H | now elim H ].
  - cbn [Re.last_char]. cbn [PyStr.count] in Hc.
    destruct (Ascii.eqb c LF) eqn:E; [ discriminate |].
    apply IH; [ exact Hc | left; cbn; exact E ].
Qed.

Lemma line_head_no_lf (s : string) : PyStr.count LF (line_head s) = 0.
Proof.
  induction s as [| c s IH]; cbn [line_head]; [ reflexivity |].
  destruct (Ascii.eqb c LF) eqn:E; [ reflexivity |].
  cbn [PyStr.count]. now rewrite E.
Qed.

(** Away from the start of a line, the scan runs to the end of the line. *)
Lemma scan_skip (s : string) : forall prev pending,
  Re.at_bol true prev = false ->
  scan true heading_re prev pending s
  = scan_eol (pending ++ line_head s) (line_rest s).
Proof.
  induction s as [| c s IH]; intros prev pending H;
    rewrite scan_eq by apply heading_re_consuming;
    rewrite heading_match_at, H; cbn [andb line_head line_rest].
  - cbn [scan_eol]. now rewrite append_nil_r.
  - destruct (Ascii.eqb c LF) eqn:E.
    + cbn [scan_eol]. now rewrite append_nil_r.
    + rewrite IH by (cbn; exact E). now rewrite append_assoc.
Qed.

(** The scan of the sections, one line at a time. *)
Lemma scan_line prev pending s :
  scan true heading_re prev pending s
  = if Re.at_bol true prev && heading_line (line_head s)
    then pending :: line_head s :: scan_eol "" (line_rest s)
    else scan_eol (pending ++ line_head s) (line_rest s).
Proof.
  destruct (Re.at_bol true prev) eqn:B; [| now apply scan_skip ].
  cbn [andb]. rewrite scan_eq by apply heading_re_consuming.
  rewrite heading_match_at, B. cbn [andb].
  destruct (heading_line (line_head s)) eqn:H.
  - do 2 f_equal. rewrite scan_skip.
    + now rewrite line_head_of_rest, line_rest_of_rest.
    + apply last_char_not_bol; [ apply line_head_no_lf |].
      right. intro E. now rewrite E in H.
  - destruct s as [| c s]; cbn [line_head line_rest].
    + cbn [scan_eol]. now rewrite append_nil_r.
    + destruct (Ascii.eqb c LF) eqn:E.
      * cbn [scan_eol]. now rewrite append_nil_r.
      * rewrite scan_skip by (cbn; exact E). now rewrite append_assoc.
Qed.

End HeadingPattern.

(* ================================================================= *)
(** ** The sections of a text *)

Section Segmentation.








End Segmentation.

(* ================================================================= *)
(** ** The table of contents *)

Section TableOfContents.

Lemma toc_entries_filter (secs : list string) :
  flat_map toc_entries secs
  = map (fun section => (heading_level section, heading_text section))
      (filter (fun section => 1 <? heading_level section)
         (filter dispatched_as_heading secs)).
Proof.
  induction secs as [| section secs IH]; [ reflexivity |].
  cbn [flat_map filter]. unfold toc_entries at 1.
  destruct (dispatched_as_heading section); [| exact IH ].
  cbn [filter]. destruct (1 <? heading_level section); [| exact IH ].
  cbn [map app]. now rewrite IH.
Qed.

(** The TOC by the level the classifier counts (every hash of the
    section): in every conversion the TOC grows by one entry, carrying the
    level the classifier counted and the heading text, for each section that
    takes the heading branch with a level above 1, in the order of the
    text and with no entry dropped as a duplicate; a heading of level 1
    and a body section add nothing. *)
Theorem toc_registration (g : DocxGenerator) (text : string) :
  headings (markdown_to_word g text)
  = (headings g
     ++ map (fun section => (heading_level section, heading_text section))
         (filter (fun section => 1 <? heading_level section)
            (filter dispatched_as_heading (sections text))))%list
  /\ headings (markdown_to_word init ("# Title" ++ NL ++ "text")) = []
  /\ headings (markdown_to_word init ("## Same" ++ NL ++ "## Same"))
     = [(2, "Same"); (2, "Same")].
Proof.
  split; [| split; reflexivity ].
  unfold markdown_to_word.
  now rewrite fold_process_section_headings, toc_entries_filter.
Qed.

(** C10: the TOC list only grows: a new generator starts with the empty
    list, [_add_heading_to_toc] appends its entry or changes nothing,
    adding a heading or a paragraph to the document leaves the list alone,
    a conversion appends to what the list held, and a second conversion on
    the same generator appends after the entries of the first. *)
Theorem toc_append_only (g : DocxGenerator) (text text' : string)
    (level : nat) (title : string) (style : Style) (runs : list Run) :
  headings init = []
  /\ (headings (_add_heading_to_toc g level title) = headings g
      \/ headings (_add_heading_to_toc g level title)
         = (headings g ++ [(level, title)])%list)
  /\ headings (add_heading g title level) = headings g
  /\ headings (add_paragraph g style runs) = headings g
  /\ headings (process_line g text) = headings g
  /\ headings (markdown_to_word g text)
     = (headings g ++ headings (markdown_to_word init text))%list
  /\ headings (markdown_to_word (markdown_to_word g text) text')
     = (headings g ++ headings (markdown_to_word init text)
        ++ headings (markdown_to_word init text'))%list.
Proof.
  assert (H : forall h t, headings (markdown_to_word h t)
                = (headings h ++ headings (markdown_to_word init t))%list).
  { intros h t. unfold markdown_to_word.
    now rewrite !fold_process_section_headings. }
  repeat split.
  - unfold _add_heading_to_toc. destruct (1 <? level); [ now right | now left ].
  - apply process_line_headings.
  - apply H.
  - now rewrite H, H, app_assoc.
Qed.

End TableOfContents.

(* ================================================================= *)
(** ** One conversion and the next *)

Section Conversions.

Lemma markdown_to_word_extend (g : DocxGenerator) (text : string) :
  markdown_to_word g text = extend g (markdown_to_word init text).
Proof.
  unfold markdown_to_word. now rewrite fold_process_section_extend.
Qed.

(** C9: [current_solution_heading] is local to a conversion: what a
    conversion appends to the document and to the TOC is what the same
    text gives on a new generator, whatever the generator went through
    before, so two generators give equal blocks and TOC entries on equal
    texts; in particular a "Solution" heading of one conversion does not
    raise a "How It Works" heading of the next to level 3, as it does
    inside one conversion. *)
Theorem conversion_independent (g g' : DocxGenerator) (text : string) :
  markdown_to_word g text = extend g (markdown_to_word init text)
  /\ markdown_to_word g' text = extend g' (markdown_to_word init text)
  /\ markdown_to_word (markdown_to_word init "## Solution")
       "### How It Works"
     = {| doc := [Heading 2 "Solution"; Heading 2 "How It Works"];
          headings := [(2, "Solution"); (3, "How It Works")] |}
  /\ markdown_to_word init ("## Solution" ++ NL ++ "### How It Works")
     = {| doc := [Heading 2 "Solution"; Heading 3 "How It Works"];
          headings := [(2, "Solution"); (3, "How It Works")] |}.
Proof.
  repeat split; apply markdown_to_word_extend.
Qed.

(** The display level by the level the classifier counts (every hash of
    the section): every heading a conversion adds to the document has a
    display level between 1 and 3: the heading branch adds one heading at the
    level [display_level], which is the smaller of the counted level
    and 2, or 3, and 3 only for a "How It Works" heading without
    "Solution" while the state is set. *)
Theorem display_level_in_range (text : string) :
  Forall level_ok (doc (markdown_to_word init text))
  /\ (forall csh g section,
        doc (snd (process_heading (csh, g) section))
        = (doc g ++ [Heading (display_level csh section)
                       (heading_text section)])%list)
  /\ (forall csh section,
        display_level csh section = Nat.min (heading_level section) 2
        \/ (display_level csh section = 3
            /\ PyStr.contains "Solution" (heading_text section) = false
            /\ PyStr.contains "How It Works" (heading_text section) = true
            /\ PyStr.truthy csh = true)).
Proof.
  split; [| split ].
  - unfold markdown_to_word. apply fold_process_section_level_ok. constructor.
  - intros csh g section. now rewrite process_heading_eq.
  - apply display_level_cases.
Qed.

(** The override by the level the classifier counts (every hash of the
    section): when a heading with "Solution" in its text comes anywhere before
    a heading with "How It Works" (and no "Solution") in its text, the
    first one is recorded in the state and added at the smaller of its
    counted level and 2, and the second one is added at level 3, whatever
    its counted level and whatever sections lie between the two. *)
Theorem how_it_works_after_solution (g : DocxGenerator) (text : string)
    (pre mid post : list string) (h1 h2 : string) :
  sections text = (pre ++ h1 :: mid ++ h2 :: post)%list ->
  dispatched_as_heading h1 = true ->
  PyStr.contains "Solution" (heading_text h1) = true ->
  dispatched_as_heading h2 = true ->
  PyStr.contains "How It Works" (heading_text h2) = true ->
  PyStr.contains "Solution" (heading_text h2) = false ->
  let st1 := fold_left process_section pre (None, g) in
  let st2 := fold_left process_section (pre ++ h1 :: mid)%list (None, g) in
  fst (process_section st1 h1) = Some (heading_text h1)
  /\ doc (snd (process_section st1 h1))
     = (doc (snd st1)
        ++ [Heading (Nat.min (heading_level h1) 2) (heading_text h1)])%list
  /\ doc (snd (process_section st2 h2))
     = (doc (snd st2) ++ [Heading 3 (heading_text h2)])%list
  /\ exists after,
       doc (markdown_to_word g text)
       = (doc (snd st2) ++ Heading 3 (heading_text h2) :: after)%list.
Proof.
  intros Hs D1 S1 D2 W2 S2 st1 st2.
  assert (E1 : process_section st1 h1
               = (Some (heading_text h1),
                  extend (snd st1)
                    {| doc := [Heading (Nat.min (heading_level h1) 2)
                                 (heading_text h1)];
                       headings := if 1 <? heading_level h1
                                   then [(heading_level h1, heading_text h1)]
                                   else [] |})).
  { destruct st1 as [csh1 g1]. rewrite process_section_heading by exact D1.
    rewrite process_heading_eq. unfold display_level. now rewrite S1. }
  assert (T2 : PyStr.truthy (fst st2) = true).
  { unfold st2. rewrite fold_left_app. cbn [fold_left]. fold st1.
    rewrite E1. apply fold_process_section_truthy.
    apply negb_true_iff, String.eqb_neq.
    now apply (contains_nonempty "Solution"). }
  assert (E2 : process_section st2 h2
               = (fst st2,
                  extend (snd st2)
                    {| doc := [Heading 3 (heading_text h2)];
                       headings := if 1 <? heading_level h2
                                   then [(heading_level h2, heading_text h2)]
                                   else [] |})).
  { destruct st2 as [csh2 g2]. rewrite process_section_heading by exact D2.
    rewrite process_heading_eq, S2.
    now rewrite (how_it_works_step csh2 h2 S2 W2 T2). }
  rewrite E1, E2. repeat split.
  unfold markdown_to_word. rewrite Hs.
  replace (pre ++ h1 :: mid ++ h2 :: post)%list
    with ((pre ++ h1 :: mid) ++ h2 :: post)%list
    by now rewrite <- app_assoc.
  rewrite fold_left_app. fold st2. cbn [fold_left]. rewrite E2.
  rewrite fold_process_section_extend. cbn [snd extend doc].
  eexists. rewrite <- app_assoc. reflexivity.
Qed.

(** The override on Example 1 of the specification, where a paragraph
    lies between "## Solution" and "### How It Works". *)
Lemma how_it_works_after_solution_witness :
  sections example1
  = ([""; "# Title"; NL] ++ "## Solution"
     :: [(NL ++ "This **changed**." ++ NL)%string] ++ "### How It Works"
     :: [(NL ++ "- step one" ++ NL ++ "1. first")%string])%list
  /\ exists after,
       doc (markdown_to_word init example1)
       = (doc (snd (fold_left process_section
                      ([""; "# Title"; NL] ++ "## Solution"
                       :: [(NL ++ "This **changed**." ++ NL)%string])%list
                      (None, init)))
          ++ Heading 3 (heading_text "### How It Works") :: after)%list.
Proof.
  split; [ reflexivity |].
  exact (proj2 (proj2 (proj2
    (how_it_works_after_solution init example1
       [""; "# Title"; NL] [(NL ++ "This **changed**." ++ NL)%string]
       [(NL ++ "- step one" ++ NL ++ "1. first")%string]
       "## Solution" "### How It Works"
       eq_refl eq_refl eq_refl eq_refl eq_refl eq_refl)))).
Defined.

End Conversions.

(* ================================================================= *)
(** ** Segmentation *)

Section SegmentationClaims.

Lemma heading_line_dispatched (line : string) :
  heading_line line = true -> dispatched_as_heading line = true.
Proof.
  unfold heading_line, dispatched_as_heading. intro H.
  apply andb_true_iff in H as [H _].
  now rewrite (startswith_hash_not_blank line H), H.
Qed.



End SegmentationClaims.

(* ================================================================= *)
(** ** Where the code leaves the specification *)

Section Divergences.

Lemma heading_level_split (section : string) :
  heading_level section
  = spec_nominal_level section
    + PyStr.count "#" (PyStr.drop (spec_nominal_level section) section).
Proof.
  unfold heading_level.
  induction section as [| c s IH]; [ reflexivity |].
  cbn [PyStr.count spec_nominal_level].
  destruct (Ascii.eqb c "#") eqn:E.
  - cbn [PyStr.drop]. rewrite IH. lia.
  - cbn [PyStr.drop PyStr.count]. now rewrite E.
Qed.

(** C2: the level the classifier uses counts every hash of the section:
    it is the count of the leading hashes plus the count of the hashes
    after them.  The title "# C# notes" has one leading hash, is given
    level 2 and enters the TOC; its text is the section with every hash
    removed, then trimmed. *)
Theorem heading_level_counts_all_hashes :
  (forall section,
      heading_level section
      = spec_nominal_level section
        + PyStr.count "#" (PyStr.drop (spec_nominal_level section) section))
  /\ sections "# C# notes" = [""; "# C# notes"; ""]
  /\ spec_nominal_level "# C# notes" = 1
  /\ heading_level "# C# notes" = 2
  /\ heading_text "# C# notes" = "C notes"
  /\ markdown_to_word init "# C# notes"
     = {| doc := [Heading 2 "C notes"]; headings := [(2, "C notes")] |}.
Proof. split; [ exact heading_level_split | repeat split ]. Qed.

Lemma startswith_cons (c : ascii) (p s : string) (d : ascii) :
  PyStr.startswith (String c p) (String d s)
  = Ascii.eqb c d && PyStr.startswith p s.
Proof.
  unfold PyStr.startswith. cbn [String.prefix].
  destruct (ascii_dec c d) as [-> | n].
  - now rewrite Ascii.eqb_refl.
  - apply Ascii.eqb_neq in n. now rewrite n.
Qed.

(** The tokens the code makes bold against the rule of the specification
    are the two strings of two and of three stars. *)
Lemma short_marker_tokens (token : string) :
  PyStr.startswith "**" token && PyStr.endswith "**" token = true ->
  spec_bold_token token = false ->
  token = "**" \/ token = "***".
Proof.
  unfold spec_bold_token. intros H S. rewrite H in S. cbn [andb] in S.
  apply andb_true_iff in H as [H1 H2].
  destruct token as [| a [| b [| c [| d t]]]]; try discriminate.
  - rewrite !startswith_cons in H1.
    apply andb_true_iff in H1 as [Ha H1]. apply andb_true_iff in H1 as [Hb _].
    apply Ascii.eqb_eq in Ha, Hb. subst. now left.
  - rewrite !startswith_cons in H1.
    apply andb_true_iff in H1 as [Ha H1]. apply andb_true_iff in H1 as [Hb _].
    apply Ascii.eqb_eq in Ha, Hb. subst.
    unfold PyStr.endswith in H2. cbn in H2.
    destruct (Ascii.eqb_spec c "*") as [E | _]; [ right; now rewrite E |].
    discriminate H2.
Qed.

(** C4: a token made of two or three stars starts and ends with the
    marker, so the tokenizer turns it into a bold run of the empty text,
    though it has fewer than four characters and is no matched pair;
    the code makes a token bold when the rule of the specification does
    or the token is one of these two, and the unterminated marker of
    Example 2 stays plain text. *)
Theorem stray_markers_become_bold :
  (forall paragraph token,
      process_segment paragraph token
      = if PyStr.startswith "**" token && PyStr.endswith "**" token
        then (paragraph
              ++ [mkRun (PyStr.slice_to_end_minus 2 2 token) true])%list
        else (paragraph ++ [mkRun token false])%list)
  /\ (forall token,
        PyStr.startswith "**" token && PyStr.endswith "**" token
        = spec_bold_token token
          || (token =? "**")%string || (token =? "***")%string)
  /\ Re.re_split false bold_re "**" = ["**"]
  /\ spec_bold_token "**" = false
  /\ _process_text_segments [] "**" = [mkRun "" true]
  /\ _process_text_segments [] "***" = [mkRun "" true]
  /\ _process_text_segments [] "a **" = [mkRun "a **" false]
  /\ markdown_to_word init "**"
     = {| doc := [Paragraph Normal [mkRun "" true]]; headings := [] |}
  /\ markdown_to_word init "**unterminated bold"
     = {| doc := [Paragraph Normal [mkRun "**unterminated bold" false]];
          headings := [] |}.
Proof.
  split; [ reflexivity | split; [| repeat split ] ].
  intro token.
  destruct (PyStr.startswith "**" token && PyStr.endswith "**" token) eqn:E.
  - destruct (spec_bold_token token) eqn:S; [ reflexivity |].
    destruct (short_marker_tokens token E S) as [-> | ->]; reflexivity.
  - unfold spec_bold_token. rewrite E. cbn [andb orb].
    destruct (String.eqb_spec token "**") as [-> | _]; [ discriminate E |].
    destruct (String.eqb_spec token "***") as [-> | _]; [ discriminate E |].
    reflexivity.
Qed.

(** C5: an indented bullet line is classified as a bullet from the
    trimmed line, and its content is cut from the line as it is: two
    characters of the indentation go, and the prefix stays.  The same
    holds for an indented numbered line, whose prefix is looked for at
    the start of the line as it is.  The line is trimmed at both ends
    before the test, so a bullet prefix with nothing after it is a plain
    paragraph. *)
Theorem indented_list_content :
  spec_bullet_content "  - item" = Some "item"
  /\ process_line init "  - item"
     = {| doc := [Paragraph ListBullet [mkRun "- item" false]];
          headings := [] |}
  /\ process_line init "- item"
     = {| doc := [Paragraph ListBullet [mkRun "item" false]];
          headings := [] |}
  /\ process_line init "  1. item"
     = {| doc := [Paragraph ListNumber [mkRun "  1. item" false]];
          headings := [] |}
  /\ process_line init "1. item"
     = {| doc := [Paragraph ListNumber [mkRun "item" false]];
          headings := [] |}
  /\ process_line init "- "
     = {| doc := [Paragraph Normal [mkRun "- " false]]; headings := [] |}.
Proof. repeat split. Qed.

(** C1: the text of the runs is not always the visible line: for an
    indented bullet the runs keep the list prefix and lose two characters
    of the indentation, and a line that is a stray marker gives runs
    with no text at all. *)
Theorem run_text_not_preserved :
  (exists runs,
      doc (markdown_to_word init "  - item") = [Paragraph ListBullet runs]
      /\ runs_text runs = "- item"
      /\ spec_bullet_content "  - item" = Some "item")
  /\ (exists runs,
         doc (markdown_to_word init "**") = [Paragraph Normal runs]
         /\ runs_text runs = "")
  /\ (exists runs,
         doc (markdown_to_word init "This **changed**.")
         = [Paragraph Normal runs]
         /\ runs_text runs = "This changed.").
Proof.
  repeat split; eexists; repeat split.
Qed.

(** The level the code works with, against the leading hashes: the
    entries a section adds to the TOC and the level it is displayed at,
    with the counted level written as the leading hashes plus the hashes
    after them. *)
Lemma toc_entries_by_hashes (section : string) :
  toc_entries section
  = if dispatched_as_heading section then
      if 1 <? spec_nominal_level section
               + PyStr.count "#"
                   (PyStr.drop (spec_nominal_level section) section)
      then [(spec_nominal_level section
             + PyStr.count "#"
                 (PyStr.drop (spec_nominal_level section) section),
             heading_text section)]
      else []
    else [].
Proof. unfold toc_entries. now rewrite <- heading_level_split. Qed.

Lemma display_level_by_hashes csh (section : string) :
  display_level csh section
  = Nat.min
      (spec_nominal_level section
       + PyStr.count "#" (PyStr.drop (spec_nominal_level section) section))
      2
  \/ (display_level csh section = 3
      /\ PyStr.contains "Solution" (heading_text section) = false
      /\ PyStr.contains "How It Works" (heading_text section) = true
      /\ PyStr.truthy csh = true).
Proof.
  rewrite <- heading_level_split. apply display_level_cases.
Qed.

(** C6: a title whose text holds a hash enters the TOC: the level the
    code tests and records counts every hash of the section, so the
    title "# C# notes", of nominal level 1, gets the entry (2, "C notes"),
    and "## C# notes", of nominal level 2, is recorded at level 3.  The
    TOC of a conversion is what the sections add, one entry at the
    counted level for each heading section whose counted level is above
    1; a heading with no hash after the leading ones is treated as the
    claim says. *)
Theorem title_with_hash_enters_toc :
  (forall g text,
      headings (markdown_to_word g text)
      = (headings g ++ flat_map toc_entries (sections text))%list)
  /\ (forall section,
        toc_entries section
        = if dispatched_as_heading section then
            if 1 <? spec_nominal_level section
                     + PyStr.count "#"
                         (PyStr.drop (spec_nominal_level section) section)
            then [(spec_nominal_level section
                   + PyStr.count "#"
                       (PyStr.drop (spec_nominal_level section) section),
                   heading_text section)]
            else []
          else [])
  /\ spec_nominal_level "# C# notes" = 1
  /\ headings (markdown_to_word init "# C# notes") = [(2, "C notes")]
  /\ spec_nominal_level "## C# notes" = 2
  /\ headings (markdown_to_word init "## C# notes") = [(3, "C notes")]
  /\ headings (markdown_to_word init "# Title") = []
  /\ headings (markdown_to_word init ("## Part" ++ NL ++ "## Part"))
     = [(2, "Part"); (2, "Part")].
Proof.
  split; [| split; [ exact toc_entries_by_hashes | repeat split ] ].
  intros g text. unfold markdown_to_word.
  apply fold_process_section_headings.
Qed.

(** C8: every heading of a conversion has a display level between 1 and
    3, but the default is the smaller of 2 and the count of every hash of
    the section, not of the leading ones: the title "# C# notes", of
    nominal level 1, is displayed at level 2.  A heading with no hash
    after the leading ones gets the smaller of its nominal level and 2,
    whatever its depth. *)
Theorem display_level_counts_all_hashes :
  (forall text, Forall level_ok (doc (markdown_to_word init text)))
  /\ (forall csh g section,
        doc (snd (process_heading (csh, g) section))
        = (doc g ++ [Heading (display_level csh section)
                       (heading_text section)])%list)
  /\ (forall csh section,
        display_level csh section
        = Nat.min
            (spec_nominal_level section
             + PyStr.count "#"
                 (PyStr.drop (spec_nominal_level section) section))
            2
        \/ (display_level csh section = 3
            /\ PyStr.contains "Solution" (heading_text section) = false
            /\ PyStr.contains "How It Works" (heading_text section) = true
            /\ PyStr.truthy csh = true))
  /\ spec_nominal_level "# C# notes" = 1
  /\ doc (markdown_to_word init "# C# notes") = [Heading 2 "C notes"]
  /\ doc (markdown_to_word init "# Title") = [Heading 1 "Title"]
  /\ doc (markdown_to_word init "####### Deep") = [Heading 2 "Deep"].
Proof.
  split; [| split; [| split; [ exact display_level_by_hashes
                             | repeat split ] ] ].
  - intro text. unfold markdown_to_word.
    apply fold_process_section_level_ok. constructor.
  - intros csh g section. now rewrite process_heading_eq.
Qed.

(** C3: a "Solution" heading whose text holds a hash is not kept at the
    smaller of its nominal level and 2: "# C# Solution", of nominal level
    1, is added at level 2, since the level counts every hash of the
    section.  The heading is recorded all the same, and a later
    "How It Works" heading is raised to level 3 whatever its level and
    whatever lies between, also when the text holds both titles after a
    "Solution" heading; a "Solution" heading with no hash after the
    leading ones keeps the smaller of its nominal level and 2. *)
Theorem solution_heading_counts_all_hashes :
  spec_nominal_level "# C# Solution" = 1
  /\ heading_level "# C# Solution" = 2
  /\ markdown_to_word init "# C# Solution"
     = {| doc := [Heading 2 "C Solution"];
          headings := [(2, "C Solution")] |}
  /\ fst (process_heading (None, init) "# C# Solution") = Some "C Solution"
  /\ doc (markdown_to_word init
            ("# C# Solution" ++ NL ++ "text" ++ NL ++ "## Other" ++ NL
             ++ "###### How It Works"))
     = [Heading 2 "C Solution";
        Paragraph Normal [mkRun "text" false];
        Heading 2 "Other"; Heading 3 "How It Works"]
  /\ doc (markdown_to_word init "# Solution") = [Heading 1 "Solution"]
  /\ doc (markdown_to_word init
            ("### Solution" ++ NL ++ "# How It Works"))
     = [Heading 2 "Solution"; Heading 3 "How It Works"]
  /\ doc (markdown_to_word init
            ("## Solution" ++ NL ++ "#### Solution: How It Works"))
     = [Heading 2 "Solution"; Heading 2 "Solution: How It Works"]
  /\ doc (markdown_to_word init "### How It Works")
     = [Heading 2 "How It Works"].
Proof. repeat split. Qed.

End Divergences.

(* ================================================================= *)
(** ** Blank texts and the lines of a text *)

Section Blank.

Lemma lstrip_empty (s : string) : PyStr.lstrip s = "" <-> all_space s = true.
Proof.
  induction s as [| c s IH]; cbn [PyStr.lstrip all_space]; [ tauto |].
  destruct (PyStr.isspace c); cbn [andb]; [ exact IH |].
  split; discriminate.
Qed.

Lemma rstrip_empty (s : string) : PyStr.rstrip s = "" <-> all_space s = true.
Proof.
  induction s as [| c s IH]; cbn [PyStr.rstrip all_space]; [ tauto |].
  destruct (PyStr.rstrip s) as [| d r].
  - destruct (PyStr.isspace c); cbn [andb].
    + split; [ intros _; now apply IH | reflexivity ].
    + split; discriminate.
  - split; [ discriminate |]. intro H. apply andb_true_iff in H as [_ H].
    apply IH in H. discriminate H.
Qed.

Lemma lstrip_head (s : string) :
  PyStr.lstrip s = ""
  \/ exists c t, PyStr.lstrip s = String c t /\ PyStr.isspace c = false.
Proof.
  induction s as [| c s IH]; cbn [PyStr.lstrip]; [ now left |].
  destruct (PyStr.isspace c) eqn:E; [ exact IH |].
  right. now exists c, s.
Qed.

(** A text is blank when it holds white space only. *)
Lemma strip_empty (s : string) : PyStr.strip s = "" <-> all_space s = true.
Proof.
  unfold PyStr.strip. rewrite rstrip_empty. split; intro H.
  - destruct (lstrip_head s) as [E | [c [t [E Hc]]]].
    + now apply lstrip_empty.
    + rewrite E in H. cbn [all_space] in H. now rewrite Hc in H.
  - apply lstrip_empty in H. now rewrite H.
Qed.

Lemma split_nonempty (c : ascii) (s : string) : PyStr.split c s <> [].
Proof.
  destruct s as [| d s]; cbn [PyStr.split]; [ discriminate |].
  destruct (Ascii.eqb d c); [ discriminate |].
  destruct (PyStr.split c s); discriminate.
Qed.

(** The lines of a blank text are blank. *)
Lemma all_space_lines (s : string) :
  all_space s = true -> Forall (fun l => all_space l = true) (PyStr.split LF s).
Proof.
  induction s as [| c s IH]; cbn [all_space PyStr.split]; intro H.
  - now repeat constructor.
  - apply andb_true_iff in H as [Hc H]. specialize (IH H).
    destruct (Ascii.eqb c LF); [ now constructor |].
    destruct (PyStr.split LF s) as [| l ls]; [ repeat constructor; cbn;
      now rewrite Hc |].
    inversion IH; subst. constructor; [ cbn; now rewrite Hc | assumption ].
Qed.

(** Splitting at a line feed splits the lines. *)
Lemma split_app_nl (q b : string) :
  PyStr.split LF (q ++ String LF b)
  = (PyStr.split LF q ++ PyStr.split LF b)%list.
Proof.
  induction q as [| c q IH]; cbn [append PyStr.split].
  - now rewrite Ascii.eqb_refl.
  - destruct (Ascii.eqb c LF); [ now rewrite IH |].
    rewrite IH. pose proof (split_nonempty LF q) as Hn.
    now destruct (PyStr.split LF q).
Qed.

Lemma split_one_line (l : string) :
  PyStr.count LF l = 0 -> PyStr.split LF l = [l].
Proof.
  induction l as [| c l IH]; cbn [PyStr.count PyStr.split]; [ reflexivity |].
  destruct (Ascii.eqb c LF); [ discriminate |].
  intro H. now rewrite IH.
Qed.

(** Splitting into lines and joining them gives the text back. *)
Lemma join_split (s : string) : PyStr.join NL (PyStr.split LF s) = s.
Proof.
  unfold PyStr.join.
  induction s as [| c s IH]; cbn [PyStr.split]; [ reflexivity |].
  destruct (Ascii.eqb_spec c LF) as [-> | n].
  - pose proof (split_nonempty LF s) as Hn.
    cbn [String.concat]. destruct (PyStr.split LF s); [ now elim Hn |].
    now rewrite IH.
  - pose proof (split_nonempty LF s) as Hn.
    destruct (PyStr.split LF s) as [| l ls]; [ now elim Hn |].
    cbn [String.concat] in *. destruct ls; cbn [append]; congruence.
Qed.

Lemma process_line_blank (g : DocxGenerator) (line : string) :
  all_space line = true -> process_line g line = g.
Proof.
  intro H. apply strip_empty in H. unfold process_line. now rewrite H.
Qed.

Lemma fold_process_line_blank (lines : list string) : forall g,
  Forall (fun l => all_space l = true) lines ->
  fold_left process_line lines g = g.
Proof.
  induction lines as [| l lines IH]; intros g H; [ reflexivity |].
  inversion H; subst. cbn [fold_left]. rewrite process_line_blank by assumption.
  now apply IH.
Qed.

End Blank.

(* ================================================================= *)
(** ** The conversion, line by line *)

Section LineByLine.

Lemma process_body_empty st : process_body st "" = st.
Proof. now destruct st. Qed.

(** A piece that does not start with a hash takes the body branch, or is
    blank and skipped, which is what the body branch does with it. *)
Lemma body_section st piece :
  PyStr.startswith "#" piece = false ->
  process_section st piece = process_body st piece.
Proof.
  intro H. unfold process_section, process_body. rewrite H.
  destruct (PyStr.strip piece =? "")%string eqn:E; [| reflexivity ].
  apply String.eqb_eq, strip_empty, all_space_lines in E.
  rewrite fold_process_line_blank by exact E. now destruct st.
Qed.

(** A heading line takes the heading branch. *)
Lemma heading_section st line :
  heading_line line = true ->
  process_section st line = process_heading st line.
Proof.
  intro H. destruct st as [csh g].
  now apply process_section_heading, heading_line_dispatched.
Qed.

Lemma process_body_nl st q : process_body st (q ++ NL) = process_body st q.
Proof.
  unfold process_body, NL. rewrite split_app_nl, fold_left_app.
  reflexivity.
Qed.

Lemma process_body_app st pending x :
  pending = "" \/ (exists q, pending = q ++ NL) ->
  process_body st (pending ++ x) = process_body (process_body st pending) x.
Proof.
  intros [-> | [q ->]].
  - now rewrite process_body_empty.
  - rewrite process_body_nl. unfold NL. rewrite append_assoc. cbn [append].
    unfold process_body. now rewrite split_app_nl, fold_left_app.
Qed.

Lemma process_body_line st l :
  PyStr.count LF l = 0 ->
  process_body st l = (fst st, process_line (snd st) l).
Proof. intro H. unfold process_body. now rewrite split_one_line. Qed.

Lemma startswith_hash_app (a b : string) :
  a <> "" -> PyStr.startswith "#" (a ++ b) = PyStr.startswith "#" a.
Proof.
  destruct a as [| c a]; [ now intros H; elim H |]. intros _.
  unfold PyStr.startswith. cbn [append String.prefix].
  destruct (ascii_dec "#" c); [| reflexivity ].
  now destruct a, b.
Qed.

(** The pending text with a line that is no heading line does not start
    with a hash, but for a lone hash at the very start. *)
Lemma pending_line_no_hash pending l :
  PyStr.startswith "#" pending = false ->
  heading_line l = false ->
  (pending = "" -> l <> "#") ->
  PyStr.startswith "#" (pending ++ l) = false.
Proof.
  intros Hp Hl Hx. destruct pending as [| c p].
  - cbn [append]. specialize (Hx eq_refl).
    destruct l as [| d [| e t]]; [ reflexivity | |].
    + destruct (Ascii.eqb_spec d "#") as [-> | n]; [ now elim Hx |].
      rewrite startswith_cons. apply Ascii.eqb_neq in n.
      rewrite Ascii.eqb_sym. now rewrite n.
    + unfold heading_line in Hl. cbn [String.length Nat.leb] in Hl.
      now rewrite andb_true_r in Hl.
  - rewrite startswith_hash_app; [ exact Hp | discriminate ].
Qed.

(** From the start of a line on, the loop over the sections does what a
    loop over the lines does. *)
Lemma sections_line_by_line : forall n s,
  String.length s < n ->
  forall prev pending st,
    Re.at_bol true prev = true ->
    pending = "" \/ (exists q, pending = q ++ NL) ->
    PyStr.startswith "#" pending = false ->
    (pending = "" -> line_head s <> "#") ->
    fold_left process_section (scan true heading_re prev pending s) st
    = fold_left process_text_line (PyStr.split LF s)
        (process_body st pending).
Proof.
  induction n as [| n IH]; intros s Hn prev pending st Hb Hf Hp Hx; [ lia |].
  pose proof (line_rest_length s) as Hl.
  pose proof (line_head_no_lf s) as Hc.
  rewrite scan_line, Hb, split_lines. cbn [andb fold_left].
  unfold process_text_line at 2.
  destruct (heading_line (line_head s)) eqn:Hh.
  - cbn [fold_left]. rewrite (body_section st pending) by exact Hp.
    rewrite heading_section by exact Hh.
    set (st' := process_heading (process_body st pending) (line_head s)).
    destruct (line_rest_cases s) as [-> | [r E]].
    + cbn [scan_eol fold_left].
      now rewrite body_section, process_body_empty.
    + rewrite E in *. cbn [scan_eol]. cbn [String.length] in Hl.
      rewrite IH; [ | lia | reflexivity | right; now exists ""
                    | reflexivity | discriminate ].
      change ("" ++ String LF "") with ("" ++ NL).
      now rewrite process_body_nl, process_body_empty.
  - pose proof (pending_line_no_hash pending (line_head s) Hp Hh Hx) as Hq.
    destruct (line_rest_cases s) as [-> | [r E]].
    + cbn [scan_eol fold_left]. rewrite body_section by exact Hq.
      rewrite process_body_app by exact Hf.
      now rewrite process_body_line.
    + rewrite E in *. cbn [scan_eol]. cbn [String.length] in Hl.
      change (String LF "") with NL.
      rewrite IH; [ | lia | reflexivity | right; now eexists | | ].
      * rewrite process_body_nl, process_body_app by exact Hf.
        now rewrite process_body_line.
      * destruct (pending ++ line_head s) eqn:Ea; [ reflexivity |].
        rewrite startswith_hash_app; [ exact Hq | discriminate ].
      * intro H. destruct (pending ++ line_head s); discriminate H.
Qed.

End LineByLine.

(* ================================================================= *)
(** ** What a conversion adds to the document *)

Section Blocks.

Lemma markdown_to_word_line_by_line_aux (g : DocxGenerator) (text : string) :
  line_head text <> "#" ->
  markdown_to_word g text
  = snd (fold_left process_text_line (PyStr.split LF text) (None, g)).
Proof.
  intro H. unfold markdown_to_word, sections, Re.re_split.
  fold (scan true heading_re None "" text).
  rewrite (sections_line_by_line (S (String.length text)));
    [ now rewrite process_body_empty | lia | reflexivity | now left
    | reflexivity | now intros _ ].
Qed.

(** X1: the conversion is a pass over the lines of the text: unless the text
    starts with a lone hash line, [markdown_to_word] treats each line that
    starts with a hash and has a second character as a heading and every
    other line as a body line, in the order of the text. *)
Theorem markdown_to_word_line_by_line (g : DocxGenerator) (text : string) :
  line_head text <> "#" ->
  markdown_to_word g text
  = snd (fold_left process_text_line (PyStr.split LF text) (None, g)).
Proof. exact (markdown_to_word_line_by_line_aux g text). Qed.

Lemma markdown_to_word_line_by_line_witness :
  line_head example1 <> "#"
  /\ markdown_to_word init example1
     = snd (fold_left process_text_line (PyStr.split LF example1)
              (None, init)).
Proof.
  split; [ discriminate |].
  apply (markdown_to_word_line_by_line init example1). discriminate.
Defined.

Lemma all_space_not_heading (line : string) :
  all_space line = true -> heading_line line = false.
Proof.
  destruct line as [| c l]; [ reflexivity |]. cbn [all_space]. intro H.
  apply andb_true_iff in H as [H _]. unfold heading_line.
  rewrite startswith_cons.
  destruct (Ascii.eqb_spec "#" c) as [<- | _]; [ discriminate H | reflexivity ].
Qed.

Lemma nonblank_all_space (line : string) :
  nonblank line = negb (all_space line).
Proof.
  unfold nonblank. destruct (all_space line) eqn:E.
  - apply strip_empty in E. now rewrite E.
  - destruct (String.eqb_spec (PyStr.strip line) "") as [H | _];
      [| reflexivity ].
    apply strip_empty in H. congruence.
Qed.

(** A line adds one block when it is not blank, and none when it is. *)
Lemma process_text_line_blocks st line :
  List.length (doc (snd (process_text_line st line)))
  = List.length (doc (snd st)) + (if nonblank line then 1 else 0).
Proof.
  unfold process_text_line. destruct (heading_line line) eqn:Hh.
  - destruct st as [csh g]. rewrite process_heading_eq.
    cbn [snd extend doc]. rewrite length_app. cbn [List.length].
    unfold heading_line in Hh. apply andb_true_iff in Hh as [Hh _].
    unfold nonblank. now rewrite (startswith_hash_not_blank line Hh).
  - cbn [snd]. unfold nonblank, process_line.
    destruct (PyStr.strip line =? "")%string; cbn [negb]; [ lia |].
    destruct (PyStr.startswith "- " (PyStr.strip line));
      [| destruct (Re.re_match false numbered_re (PyStr.strip line)) ];
      cbn [add_paragraph doc]; rewrite length_app; reflexivity.
Qed.

Lemma fold_process_text_line_blocks lines : forall st,
  List.length (doc (snd (fold_left process_text_line lines st)))
  = List.length (doc (snd st)) + List.length (filter nonblank lines).
Proof.
  induction lines as [| l lines IH]; intro st; cbn [fold_left filter];
    [ cbn; lia |].
  rewrite IH, process_text_line_blocks.
  destruct (nonblank l); cbn [List.length]; lia.
Qed.

(** X2: one block for each line that is not blank: unless the text starts
    with a lone hash line, a conversion adds as many blocks to the
    document as the text has non-blank lines. *)
Theorem one_block_per_nonblank_line (g : DocxGenerator) (text : string) :
  line_head text <> "#" ->
  List.length (doc (markdown_to_word g text))
  = List.length (doc g)
    + List.length (filter nonblank (PyStr.split LF text)).
Proof.
  intro H. rewrite (markdown_to_word_line_by_line_aux g text H).
  apply fold_process_text_line_blocks.
Qed.

Lemma one_block_per_nonblank_line_witness :
  line_head example1 <> "#"
  /\ List.length (doc (markdown_to_word init example1))
     = List.length (doc init)
       + List.length (filter nonblank (PyStr.split LF example1)).
Proof.
  split; [ discriminate |].
  apply (one_block_per_nonblank_line init example1). discriminate.
Defined.

Lemma all_space_line_head (text : string) :
  all_space text = true -> line_head text <> "#".
Proof.
  destruct text as [| c t]; [ discriminate |]. cbn [all_space line_head].
  intro H. apply andb_true_iff in H as [H _].
  destruct (Ascii.eqb c LF); [ discriminate |].
  intro E. injection E as -> _. discriminate H.
Qed.

Lemma fold_process_text_line_blank lines : forall st,
  Forall (fun l => all_space l = true) lines ->
  fold_left process_text_line lines st = st.
Proof.
  induction lines as [| l lines IH]; intros st H; [ reflexivity |].
  inversion H; subst. cbn [fold_left]. rewrite <- (IH st) at 2 by assumption.
  f_equal. unfold process_text_line.
  rewrite all_space_not_heading, process_line_blank by assumption.
  now destruct st.
Qed.

(** X3: a blank text adds nothing: when the text holds white space only (or
    nothing), the conversion leaves the document and the TOC as they
    were. *)
Theorem blank_text_adds_nothing (g : DocxGenerator) (text : string) :
  PyStr.strip text = "" -> markdown_to_word g text = g.
Proof.
  intro H. apply strip_empty in H.
  rewrite markdown_to_word_line_by_line_aux by now apply all_space_line_head.
  now rewrite fold_process_text_line_blank by now apply all_space_lines.
Qed.

Lemma blank_text_adds_nothing_witness :
  PyStr.strip ("  " ++ NL ++ " ") = ""
  /\ markdown_to_word init ("  " ++ NL ++ " ") = init.
Proof.
  split; [ reflexivity |].
  apply (blank_text_adds_nothing init ("  " ++ NL ++ " ")). reflexivity.
Defined.

End Blocks.

(* ================================================================= *)
(** ** The runs of a content *)

Section Runs.

Lemma drop_append (a b : string) : PyStr.drop (String.length a) (a ++ b) = b.
Proof. induction a as [| x a IH]; [ now destruct b | exact IH ]. Qed.

(** A match of the bold pattern starts with the marker. *)
Lemma bold_match_prefix prev s :
  String.prefix "**" s = false -> Re.match_at false bold_re prev s = None.
Proof.
  intro H. unfold Re.match_at, bold_re. cbn [Re.run Re.cls_match].
  destruct s as [| c [| d s]]; [ reflexivity | |].
  - now destruct (Ascii.eqb c "*").
  - destruct (Ascii.eqb_spec c "*") as [-> | _]; [| reflexivity ].
    destruct (Ascii.eqb_spec d "*") as [-> | _]; [| reflexivity ].
    destruct s; discriminate H.
Qed.

Lemma contains_tail sub c s :
  PyStr.contains sub (String c s) = false -> PyStr.contains sub s = false.
Proof.
  cbn [PyStr.contains]. intro H. now apply orb_false_iff in H as [_ H].
Qed.

Lemma contains_prefix sub s :
  PyStr.contains sub s = false -> String.prefix sub s = false.
Proof.
  destruct s; cbn [PyStr.contains]; intro H;
    now apply orb_false_iff in H as [H _].
Qed.

(** Without a marker in it, a text is one token. *)
Lemma scan_no_marker (s : string) : forall prev pending,
  PyStr.contains "**" s = false ->
  scan false bold_re prev pending s = [pending ++ s].
Proof.
  induction s as [| c s IH]; intros prev pending H;
    rewrite scan_eq by reflexivity;
    rewrite bold_match_prefix by now apply contains_prefix.
  - now rewrite append_nil_r.
  - rewrite IH by now apply contains_tail with c.
    now rewrite append_assoc.
Qed.

(** X4: a content without the marker gives one plain run that holds it
    whole, after the runs the paragraph has. *)
Theorem plain_content_one_run (paragraph : list Run) (text : string) :
  PyStr.contains "**" text = false ->
  _process_text_segments paragraph text
  = (paragraph ++ [mkRun text false])%list.
Proof.
  intro H. unfold _process_text_segments, Re.re_split.
  fold (scan false bold_re None "" text).
  rewrite scan_no_marker by exact H. cbn [fold_left append].
  unfold process_segment, PyStr.startswith.
  now rewrite (contains_prefix _ _ H).
Qed.

Lemma plain_content_one_run_witness :
  PyStr.contains "**" "a * b" = false
  /\ _process_text_segments [] "a * b" = ([] ++ [mkRun "a * b" false])%list.
Proof.
  split; [ reflexivity |].
  apply (plain_content_one_run [] "a * b"). reflexivity.
Defined.

(** The bold pattern does not look at what comes before a position. *)
Lemma bold_match_prev prev prev' s :
  Re.match_at false bold_re prev s = Re.match_at false bold_re prev' s.
Proof.
  unfold Re.match_at, bold_re. cbn [Re.run].
  destruct s as [| c [| d s]]; [ reflexivity | |];
    destruct (Re.cls_match (Re.Chr "*") c); try reflexivity.
Qed.

Lemma split_from_bold_prev fuel : forall prev prev' pending s,
  Re.split_from false bold_re fuel prev pending s
  = Re.split_from false bold_re fuel prev' pending s.
Proof.
  induction fuel as [| fuel IH]; intros prev prev' pending s; [ reflexivity |].
  cbn [Re.split_from]. rewrite (bold_match_prev prev prev').
  destruct (Re.match_at false bold_re prev' s) as [[tok rest] |].
  - do 2 f_equal. apply IH.
  - destruct s as [| c s]; [ reflexivity | apply IH ].
Qed.

(** Text without a star is passed over. *)
Lemma scan_no_star (a : string) : forall prev pending rest,
  PyStr.count "*" a = 0 ->
  exists prev',
    scan false bold_re prev pending (a ++ rest)
    = scan false bold_re prev' (pending ++ a) rest.
Proof.
  induction a as [| c a IH]; intros prev pending rest H.
  - exists prev. now rewrite append_nil_r.
  - cbn [PyStr.count] in H. destruct (Ascii.eqb c "*") eqn:E;
      [ discriminate |].
    destruct (IH (Some c) (pending ++ String c "") rest H) as [prev' Hp].
    exists prev'. cbn [append]. rewrite scan_eq by reflexivity.
    rewrite bold_match_prefix.
    + rewrite Hp, append_assoc. reflexivity.
    + cbn [String.prefix]. destruct (ascii_dec "*" c) as [<- | _];
        [ discriminate E | reflexivity ].
Qed.

(** The lazy [.+?] runs over a span without star or line feed and stops
    at the marker that follows it. *)
Lemma lazy_span (b c : string) :
  b <> "" -> PyStr.count "*" b = 0 -> PyStr.count LF b = 0 ->
  Re.many_lazy Re.AnyChar
    (Re.run false [Re.One (Re.Chr "*"); Re.One (Re.Chr "*")])
    (b ++ "**" ++ c)
  = Some c.
Proof.
  induction b as [| x b IH]; intros Hn Hs Hl; [ now elim Hn |].
  cbn [PyStr.count] in Hs, Hl.
  destruct (Ascii.eqb x "*") eqn:Ex; [ discriminate |].
  destruct (Ascii.eqb x LF) eqn:El; [ discriminate |].
  cbn [append Re.many_lazy Re.cls_match]. rewrite El. cbn [negb].
  destruct b as [| y b].
  - reflexivity.
  - cbn [PyStr.count] in Hs. destruct (Ascii.eqb y "*") eqn:Ey;
      [ discriminate |].
    cbn [append Re.run Re.cls_match]. rewrite Ey.
    apply IH; [ discriminate | cbn [PyStr.count]; now rewrite Ey | exact Hl ].
Qed.

Lemma run_one ml p pat prev c s :
  Re.run ml (Re.One p :: pat) prev (String c s)
  = if Re.cls_match p c then Re.run ml pat (Some c) s else None.
Proof. reflexivity. Qed.

Lemma run_lazy ml p pat prev s :
  Re.run ml (Re.ManyLazy p :: pat) prev s
  = Re.many_lazy p (Re.run ml pat) s.
Proof. reflexivity. Qed.

Lemma bold_span_match prev (b c : string) :
  b <> "" -> PyStr.count "*" b = 0 -> PyStr.count LF b = 0 ->
  Re.match_at false bold_re prev ("**" ++ b ++ "**" ++ c)
  = Some ("**" ++ b ++ "**", c).
Proof.
  intros Hn Hs Hl. unfold Re.match_at, bold_re.
  change ("**" ++ b ++ "**" ++ c)
    with (String "*" (String "*" (b ++ "**" ++ c))).
  rewrite !run_one. change (Re.cls_match (Re.Chr "*") "*") with true.
  cbv iota. rewrite run_lazy, (lazy_span b c Hn Hs Hl). do 2 f_equal.
  replace (String "*" (String "*" (b ++ "**" ++ c)))
    with (("**" ++ b ++ "**") ++ c)
    by (rewrite !append_assoc; reflexivity).
  now rewrite length_append, Nat.add_sub, take_append.
Qed.

Lemma fold_process_segment_app tokens : forall paragraph,
  fold_left process_segment tokens paragraph
  = (paragraph ++ fold_left process_segment tokens [])%list.
Proof.
  induction tokens as [| t tokens IH]; intro paragraph; cbn [fold_left].
  - now rewrite app_nil_r.
  - rewrite IH, (IH (process_segment [] t)), app_assoc. f_equal.
    unfold process_segment, add_run.
    now destruct (PyStr.startswith "**" t && PyStr.endswith "**" t).
Qed.

Lemma process_segment_app paragraph token :
  process_segment paragraph token
  = (paragraph ++ process_segment [] token)%list.
Proof.
  unfold process_segment, add_run.
  now destruct (PyStr.startswith "**" token && PyStr.endswith "**" token).
Qed.

Lemma no_star_not_marker (a : string) :
  PyStr.count "*" a = 0 -> PyStr.startswith "**" a = false.
Proof.
  destruct a as [| c a]; [ reflexivity |]. cbn [PyStr.count]. intro H.
  rewrite startswith_cons. rewrite Ascii.eqb_sym.
  now destruct (Ascii.eqb c "*").
Qed.

Lemma plain_token_run (a : string) :
  PyStr.count "*" a = 0 -> process_segment [] a = [mkRun a false].
Proof.
  intro H. unfold process_segment. now rewrite (no_star_not_marker a H).
Qed.

Lemma bold_token_run (b : string) :
  process_segment [] ("**" ++ b ++ "**") = [mkRun b true].
Proof.
  unfold process_segment.
  replace (PyStr.startswith "**" ("**" ++ b ++ "**")) with true
    by (unfold PyStr.startswith; cbn; now destruct (b ++ "**")).
  assert (E : PyStr.endswith "**" ("**" ++ b ++ "**") = true).
  { unfold PyStr.endswith. rewrite <- append_assoc, length_append.
    cbn [String.length]. rewrite Nat.add_sub, drop_append.
    apply andb_true_iff. split; [ apply Nat.leb_le; lia | reflexivity ]. }
  rewrite E. cbn [andb]. unfold add_run, PyStr.slice_to_end_minus.
  rewrite <- append_assoc, length_append. cbn [String.length].
  rewrite Nat.add_sub, take_append. cbn [app]. f_equal.
Qed.

(** X5: a span between two markers becomes a bold run of what is between
    them: for a text [a] without star and a non-empty [b] without star or
    line feed, the content [a**b**c] gives the plain run [a], the bold
    run [b], and then the runs of [c]. *)
Theorem bold_span_runs (a b c : string) :
  PyStr.count "*" a = 0 ->
  b <> "" -> PyStr.count "*" b = 0 -> PyStr.count LF b = 0 ->
  _process_text_segments [] (a ++ "**" ++ b ++ "**" ++ c)
  = (mkRun a false :: mkRun b true :: _process_text_segments [] c)%list.
Proof.
  intros Ha Hn Hs Hl. unfold _process_text_segments, Re.re_split.
  fold (scan false bold_re None "" (a ++ "**" ++ b ++ "**" ++ c)).
  destruct (scan_no_star a None "" ("**" ++ b ++ "**" ++ c) Ha)
    as [prev' ->].
  rewrite scan_eq by reflexivity.
  rewrite (bold_span_match prev' b c Hn Hs Hl). cbn [fold_left].
  change ("" ++ a) with a.
  unfold scan. rewrite (split_from_bold_prev _ _ None).
  rewrite fold_process_segment_app.
  rewrite (process_segment_app (process_segment [] a)).
  now rewrite bold_token_run, (plain_token_run a Ha).
Qed.

Lemma bold_span_runs_witness :
  PyStr.count "*" "This " = 0
  /\ "changed" <> ""
  /\ PyStr.count "*" "changed" = 0
  /\ PyStr.count LF "changed" = 0
  /\ _process_text_segments [] ("This " ++ "**" ++ "changed" ++ "**" ++ ".")
     = (mkRun "This " false :: mkRun "changed" true
        :: _process_text_segments [] ".")%list.
Proof.
  split; [ reflexivity |]. split; [ discriminate |].
  split; [ reflexivity |]. split; [ reflexivity |].
  apply (bold_span_runs "This " "changed" "."); try reflexivity.
  discriminate.
Defined.

End Runs.

(* ================================================================= *)
(** ** What every block of a converted document satisfies *)

Section BlockInvariants.

Lemma rstrip_idempotent (s : string) :
  PyStr.rstrip (PyStr.rstrip s) = PyStr.rstrip s.
Proof.
  induction s as [| c s IH]; [ reflexivity |]. cbn [PyStr.rstrip].
  destruct (PyStr.rstrip s) as [| d r] eqn:E.
  - destruct (PyStr.isspace c) eqn:Ec; [ reflexivity |].
    cbn [PyStr.rstrip]. now rewrite Ec.
  - cbn [PyStr.rstrip] in *. now rewrite IH.
Qed.

Lemma rstrip_head (c : ascii) (s : string) :
  PyStr.isspace c = false ->
  exists r, PyStr.rstrip (String c s) = String c r.
Proof.
  intro H. cbn [PyStr.rstrip]. destruct (PyStr.rstrip s) as [| d r].
  - rewrite H. now exists "".
  - now exists (String d r).
Qed.

(** Trimming a trimmed text changes nothing. *)
Lemma strip_idempotent (s : string) :
  PyStr.strip (PyStr.strip s) = PyStr.strip s.
Proof.
  unfold PyStr.strip at 2 3.
  destruct (lstrip_head s) as [-> | [c [t [-> Hc]]]]; [ reflexivity |].
  destruct (rstrip_head c t Hc) as [r E]. unfold PyStr.strip.
  rewrite E. cbn [PyStr.lstrip]. rewrite Hc, <- E.
  apply rstrip_idempotent.
Qed.

Lemma count_lstrip (c : ascii) (s : string) :
  PyStr.count c s = 0 -> PyStr.count c (PyStr.lstrip s) = 0.
Proof.
  induction s as [| d s IH]; [ reflexivity |]. cbn [PyStr.lstrip].
  destruct (PyStr.isspace d); [| now intro ]. cbn [PyStr.count].
  intro H. apply IH. lia.
Qed.

Lemma count_rstrip (c : ascii) (s : string) :
  PyStr.count c s = 0 -> PyStr.count c (PyStr.rstrip s) = 0.
Proof.
  induction s as [| d s IH]; [ reflexivity |]. cbn [PyStr.rstrip PyStr.count].
  intro H. assert (H1 : PyStr.count c s = 0) by lia. specialize (IH H1).
  destruct (PyStr.rstrip s) as [| e r].
  - destruct (PyStr.isspace d); [ reflexivity |]. cbn [PyStr.count]. lia.
  - cbn [PyStr.count] in *. lia.
Qed.

Lemma count_remove (c : ascii) (s : string) :
  PyStr.count c (PyStr.remove c s) = 0.
Proof.
  induction s as [| d s IH]; [ reflexivity |]. cbn [PyStr.remove].
  destruct (Ascii.eqb d c) eqn:E; [ exact IH |].
  cbn [PyStr.count]. now rewrite E, IH.
Qed.

(** The text of a heading holds no hash and is trimmed. *)
Lemma heading_text_no_hash_trimmed (section : string) :
  PyStr.count "#" (heading_text section) = 0
  /\ PyStr.strip (heading_text section) = heading_text section.
Proof.
  unfold heading_text. split; [| apply strip_idempotent ].
  unfold PyStr.strip. apply count_rstrip, count_lstrip, count_remove.
Qed.

(** The pieces of a split are odd in number. *)
Lemma split_from_odd ml pat fuel : forall prev pending s,
  Nat.odd (List.length (Re.split_from ml pat fuel prev pending s)) = true.
Proof.
  induction fuel as [| fuel IH]; intros prev pending s; [ reflexivity |].
  cbn [Re.split_from].
  destruct (Re.match_at ml pat prev s) as [[tok rest] |].
  - cbn [List.length]. rewrite Nat.odd_succ_succ. apply IH.
  - destruct s as [| c s]; [ reflexivity | apply IH ].
Qed.

Lemma fold_process_segment_length tokens : forall paragraph,
  List.length (fold_left process_segment tokens paragraph)
  = List.length paragraph + List.length tokens.
Proof.
  induction tokens as [| t tokens IH]; intro paragraph; cbn [fold_left];
    [ cbn; lia |].
  rewrite IH, process_segment_app, length_app. unfold process_segment.
  destruct (PyStr.startswith "**" t && PyStr.endswith "**" t); cbn; lia.
Qed.

Lemma process_text_segments_odd (text : string) :
  Nat.odd (List.length (_process_text_segments [] text)) = true.
Proof.
  unfold _process_text_segments. rewrite fold_process_segment_length.
  apply split_from_odd.
Qed.

(** What holds of every heading and of every paragraph a line can give
    holds of every block a conversion adds. *)
Lemma conversion_forall (P : Block -> Prop) :
  (forall level section, P (Heading level (heading_text section))) ->
  (forall style text, P (Paragraph style (_process_text_segments [] text))) ->
  forall text g,
    Forall P (doc g) -> Forall P (doc (markdown_to_word g text)).
Proof.
  intros Hh Hp text g Hg. unfold markdown_to_word.
  generalize (@None string) as csh. revert g Hg.
  induction (sections text) as [| section secs IH]; intros g Hg csh;
    [ exact Hg |].
  cbn [fold_left].
  destruct (process_section (csh, g) section) as [csh' g'] eqn:E.
  apply IH. unfold process_section in E.
  destruct (PyStr.strip section =? "")%string;
    [ injection E as _ <-; exact Hg |].
  destruct (PyStr.startswith "#" section).
  - rewrite process_heading_eq in E. injection E as _ <-.
    cbn [extend doc]. apply Forall_app. split; [ exact Hg |].
    constructor; [ apply Hh | constructor ].
  - injection E as _ <-. cbn [snd]. clear IH.
    revert g Hg. induction (PyStr.split LF section) as [| l ls IHl];
      intros g Hg; [ exact Hg |].
    cbn [fold_left]. apply IHl. unfold process_line.
    destruct (PyStr.strip l =? "")%string; [ exact Hg |].
    destruct (PyStr.startswith "- " (PyStr.strip l));
      [| destruct (Re.re_match false numbered_re (PyStr.strip l)) ];
      cbn [add_paragraph doc]; apply Forall_app; split; try exact Hg;
      constructor; try apply Hp; constructor.
Qed.

(** X7: every heading a conversion adds has a text without hash and without
    white space at its ends, and so has every entry it adds to the
    TOC. *)
Theorem heading_texts_clean (text : string) :
  Forall (fun b => match b with
                   | Heading _ t =>
                       PyStr.count "#" t = 0 /\ PyStr.strip t = t
                   | Paragraph _ _ => True
                   end)
    (doc (markdown_to_word init text))
  /\ Forall (fun e => PyStr.count "#" (snd e) = 0
                      /\ PyStr.strip (snd e) = snd e)
       (headings (markdown_to_word init text)).
Proof.
  split.
  - apply conversion_forall; [ | | constructor ].
    + intros _ section. apply heading_text_no_hash_trimmed.
    + now intros.
  - unfold markdown_to_word.
    rewrite fold_process_section_headings. cbn [headings init app].
    apply Forall_forall. intros e He. apply in_flat_map in He as [s [_ He]].
    unfold toc_entries in He.
    destruct (dispatched_as_heading s); [| now elim He ].
    destruct (1 <? heading_level s); [| now elim He ].
    destruct He as [<- | []]. apply heading_text_no_hash_trimmed.
Qed.

(** X6: every paragraph a conversion adds has an odd number of runs, so at
    least one. *)
Theorem paragraphs_have_runs (text : string) :
  Forall (fun b => match b with
                   | Heading _ _ => True
                   | Paragraph _ runs =>
                       Nat.odd (List.length runs) = true /\ runs <> []
                   end)
    (doc (markdown_to_word init text)).
Proof.
  apply conversion_forall; [ now intros | | constructor ].
  intros _ content. pose proof (process_text_segments_odd content) as H.
  split; [ exact H |]. intro E. rewrite E in H. discriminate H.
Qed.

End BlockInvariants.

(* ================================================================= *)
(** ** List items written at the start of a line *)

Section ListItems.

Lemma rstrip_cons_nonblank (c : ascii) (s : string) :
  all_space s = false ->
  PyStr.rstrip (String c s) = String c (PyStr.rstrip s).
Proof.
  intro H. cbn [PyStr.rstrip].
  destruct (PyStr.rstrip s) eqn:E; [| reflexivity ].
  apply rstrip_empty in E. congruence.
Qed.

Lemma rstrip_app_nonblank (a s : string) :
  all_space s = false -> PyStr.rstrip (a ++ s) = a ++ PyStr.rstrip s.
Proof.
  intro H. induction a as [| c a IH]; [ reflexivity |]. cbn [append].
  rewrite rstrip_cons_nonblank, IH; [ reflexivity |].
  clear IH. induction a as [| d a IH]; [ exact H |]. cbn [append all_space].
  now rewrite IH, andb_false_r.
Qed.

Lemma strip_nonblank (s : string) :
  PyStr.strip s <> "" -> all_space s = false.
Proof.
  intro H. destruct (all_space s) eqn:E; [| reflexivity ].
  apply strip_empty in E. now elim H.
Qed.

(** X9: a bullet at the start of the line: the line "- " followed by a
    content that is not blank gives a bullet paragraph with the runs of
    the content. *)
Theorem bullet_item_content (g : DocxGenerator) (content : string) :
  PyStr.strip content <> "" ->
  process_line g ("- " ++ content)
  = add_paragraph g ListBullet (_process_text_segments [] content).
Proof.
  intro H. apply strip_nonblank in H. unfold process_line.
  assert (E : PyStr.strip ("- " ++ content) = "- " ++ PyStr.rstrip content).
  { unfold PyStr.strip. cbn [append PyStr.lstrip].
    change (PyStr.isspace "-") with false. cbv iota.
    change (String "-" (String " " content)) with ("- " ++ content).
    now apply rstrip_app_nonblank. }
  rewrite E. cbn [append String.eqb Ascii.eqb Bool.eqb].
  unfold PyStr.startswith. cbn [String.prefix].
  destruct (ascii_dec "-" "-") as [_ | n]; [| now elim n ].
  destruct (ascii_dec " " " ") as [_ | n]; [| now elim n ].
  cbn [PyStr.drop]. now destruct (PyStr.rstrip content).
Qed.

Lemma bullet_item_content_witness :
  PyStr.strip "step **one**" <> ""
  /\ process_line init ("- " ++ "step **one**")
     = add_paragraph init ListBullet
         (_process_text_segments [] "step **one**").
Proof.
  split; [ discriminate |].
  apply (bullet_item_content init "step **one**"). discriminate.
Defined.

(** A text of digits. *)
Lemma digits_then_dot (digits rest : string) (prev : option ascii) :
  digits <> "" ->
  (forall c, PyStr.count c digits <> 0 -> PyStr.isdigit c = true) ->
  Re.many_greedy Re.DigitChar
    (Re.run false [Re.One (Re.Chr "."); Re.One (Re.Chr " ")])
    (digits ++ ". " ++ rest)
  = Some rest.
Proof.
  induction digits as [| d ds IH]; intros Hn Hd; [ now elim Hn |].
  assert (Hc : PyStr.isdigit d = true).
  { apply Hd. cbn [PyStr.count]. now rewrite Ascii.eqb_refl. }
  change (String d ds ++ ". " ++ rest)
    with (String d (ds ++ ". " ++ rest)).
  cbn [Re.many_greedy Re.cls_match]. rewrite Hc.
  destruct ds as [| e ds].
  - reflexivity.
  - rewrite IH; [ reflexivity | discriminate |].
    intros c H. apply Hd. cbn [PyStr.count] in *.
    destruct (Ascii.eqb d c); lia.
Qed.

Lemma numbered_match (digits rest : string) :
  digits <> "" ->
  (forall c, PyStr.count c digits <> 0 -> PyStr.isdigit c = true) ->
  Re.run false numbered_re None (digits ++ ". " ++ rest) = Some rest.
Proof.
  intros Hn Hd. exact (digits_then_dot digits rest None Hn Hd).
Qed.

(** Past the start of the string, the numbered pattern matches nothing. *)
Lemma sub_from_past_start fuel : forall c s,
  Re.sub_from false numbered_re fuel (Some c) s = s.
Proof.
  induction fuel as [| fuel IH]; intros c s; [ reflexivity |].
  cbn [Re.sub_from]. unfold Re.match_at, numbered_re. cbn [Re.run Re.at_bol andb].
  destruct s as [| d s]; [ reflexivity |]. now rewrite IH.
Qed.

Lemma last_char_some (tok : string) : forall prev,
  tok <> "" -> exists c, Re.last_char prev tok = Some c.
Proof.
  induction tok as [| x tok IH]; intros prev H; [ now elim H |].
  cbn [Re.last_char]. destruct tok as [| y tok]; [ now exists x |].
  apply IH. discriminate.
Qed.

Lemma isdigit_not_space (c : ascii) :
  PyStr.isdigit c = true -> PyStr.isspace c = false.
Proof.
  unfold PyStr.isdigit, PyStr.isspace. intro H.
  apply andb_true_iff in H as [H1 H2].
  apply Nat.leb_le in H1, H2.
  repeat (apply orb_false_iff; split);
    try (apply andb_false_iff; (left + right); apply Nat.leb_gt; lia);
    apply Nat.eqb_neq; lia.
Qed.

(** X10: a numbered item at the start of the line: digits, a period, a space
    and a content that is not blank give a numbered paragraph with the
    runs of the content. *)
Theorem numbered_item_content (g : DocxGenerator) (digits content : string) :
  digits <> "" ->
  (forall c, PyStr.count c digits <> 0 -> PyStr.isdigit c = true) ->
  PyStr.strip content <> "" ->
  process_line g (digits ++ ". " ++ content)
  = add_paragraph g ListNumber (_process_text_segments [] content).
Proof.
  intros Hn Hd H. apply strip_nonblank in H.
  destruct digits as [| d ds] eqn:Ed; [ now elim Hn |]. rewrite <- Ed in *.
  assert (Hc : PyStr.isdigit d = true).
  { apply Hd. rewrite Ed. cbn [PyStr.count]. now rewrite Ascii.eqb_refl. }
  assert (E : PyStr.strip (digits ++ ". " ++ content)
              = digits ++ ". " ++ PyStr.rstrip content).
  { unfold PyStr.strip.
    assert (El : PyStr.lstrip (digits ++ ". " ++ content)
                 = digits ++ ". " ++ content).
    { rewrite Ed. cbn [append PyStr.lstrip].
      now rewrite (isdigit_not_space d Hc). }
    rewrite El, rstrip_app_nonblank by reflexivity. f_equal.
    change (". " ++ content) with (String "." (String " " content)).
    assert (Hs : all_space (String " " content) = false)
      by (cbn [all_space]; now rewrite H, andb_false_r).
    now rewrite (rstrip_cons_nonblank "." _ Hs),
      (rstrip_cons_nonblank " " _ H). }
  unfold process_line. rewrite E.
  replace ((digits ++ ". " ++ PyStr.rstrip content =? "")%string) with false
    by (rewrite Ed; reflexivity).
  replace (PyStr.startswith "- " (digits ++ ". " ++ PyStr.rstrip content))
    with false.
  2:{ rewrite Ed. cbn [append]. rewrite startswith_cons.
      destruct (Ascii.eqb_spec "-" d) as [<- | _]; [ discriminate Hc |].
      reflexivity. }
  unfold Re.re_match. rewrite numbered_match by assumption.
  f_equal. f_equal. unfold Re.re_sub_empty.
  cbn [Re.sub_from]. unfold Re.match_at.
  rewrite numbered_match by assumption.
  set (tok := PyStr.take _ _).
  assert (Ht : tok = digits ++ ". ").
  { unfold tok. rewrite <- append_assoc, length_append, Nat.add_sub.
    apply take_append. }
  destruct (last_char_some tok None) as [c Hl];
    [ rewrite Ht, Ed; discriminate |].
  rewrite Hl. apply sub_from_past_start.
Qed.

Lemma numbered_item_content_witness :
  "12" <> ""
  /\ (forall c, PyStr.count c "12" <> 0 -> PyStr.isdigit c = true)
  /\ PyStr.strip "first" <> ""
  /\ process_line init ("12" ++ ". " ++ "first")
     = add_paragraph init ListNumber (_process_text_segments [] "first").
Proof.
  assert (Hd : forall c, PyStr.count c "12" <> 0 -> PyStr.isdigit c = true).
  { intros c H. cbn [PyStr.count] in H.
    destruct (Ascii.eqb_spec "1" c) as [E | _]; [ now rewrite <- E |].
    destruct (Ascii.eqb_spec "2" c) as [E | _]; [ now rewrite <- E |].
    now elim H. }
  split; [ discriminate |]. split; [ exact Hd |]. split; [ discriminate |].
  apply (numbered_item_content init "12" "first");
    [ discriminate | exact Hd | discriminate ].
Defined.

(** X11: the two list tests exclude each other: a trimmed line that starts
    with the bullet prefix is not matched by the numbered pattern, so
    their order in the code does not matter. *)
Theorem bullet_not_numbered (line : string) :
  PyStr.startswith "- " line = true ->
  Re.re_match false numbered_re line = false.
Proof.
  destruct line as [| c l]; [ discriminate |].
  rewrite startswith_cons. intro H. apply andb_true_iff in H as [H _].
  apply Ascii.eqb_eq in H. subst c. reflexivity.
Qed.

Lemma bullet_not_numbered_witness :
  PyStr.startswith "- " "- 1. x" = true
  /\ Re.re_match false numbered_re "- 1. x" = false.
Proof.
  split; [ reflexivity |]. apply (bullet_not_numbered "- 1. x"). reflexivity.
Defined.

End ListItems.

(* ================================================================= *)
(** ** The TOC against the document *)

Section TocAgainstDocument.

Lemma toc_entry_in_app blocks more e :
  toc_entry_in blocks e -> toc_entry_in (blocks ++ more) e.
Proof.
  intros [H [level [Hl Hin]]]. split; [ exact H |].
  exists level. split; [ exact Hl | apply in_or_app; now left ].
Qed.

Lemma process_section_toc_in csh g section :
  Forall (toc_entry_in (doc g)) (headings g) ->
  Forall (toc_entry_in (doc (snd (process_section (csh, g) section))))
    (headings (snd (process_section (csh, g) section))).
Proof.
  intro H. rewrite process_section_headings.
  rewrite process_section_extend. cbn [snd extend doc].
  apply Forall_app. split.
  - eapply Forall_impl; [| exact H ]. intros e. apply toc_entry_in_app.
  - unfold toc_entries, dispatched_as_heading, process_section.
    destruct (PyStr.strip section =? "")%string; cbn [negb andb];
      [ constructor |].
    destruct (PyStr.startswith "#" section); [| constructor ].
    destruct (1 <? heading_level section) eqn:E; [| constructor ].
    apply Nat.ltb_lt in E. constructor; [| constructor ].
    rewrite process_heading_eq. cbn [snd extend doc init app fst].
    split; [ exact E |].
    exists (display_level csh section). split.
    + destruct (display_level_cases csh section) as [-> | [-> _]];
        [ left; lia | now right ].
    + apply in_or_app. right. now left.
Qed.

(** X8: the TOC agrees with the document: every entry a conversion adds to
    the TOC has a level of 2 or more, and the document holds a heading
    with the text of the entry at display level 2 or 3. *)
Theorem toc_entries_in_document (text : string) :
  Forall (toc_entry_in (doc (markdown_to_word init text)))
    (headings (markdown_to_word init text)).
Proof.
  unfold markdown_to_word.
  assert (H : Forall (toc_entry_in (doc init)) (headings init))
    by constructor.
  revert H. generalize init as g. generalize (@None string) as csh.
  induction (sections text) as [| section secs IH]; intros csh g H;
    [ exact H |].
  cbn [fold_left].
  destruct (process_section (csh, g) section) as [csh' g'] eqn:E.
  apply IH. pose proof (process_section_toc_in csh g section H) as H'.
  now rewrite E in H'.
Qed.

End TocAgainstDocument.

(* ================================================================= *)
(** ** [extract_relevant_code] *)

Section ExtractRelevantCode.

Lemma take_drop (n : nat) (s : string) : PyStr.take n s ++ PyStr.drop n s = s.
Proof.
  revert s. induction n as [| n IH]; intros [| c s]; cbn; try reflexivity.
  now rewrite IH.
Qed.

Lemma take_length (n : nat) (s : string) :
  String.length (PyStr.take n s) <= n.
Proof.
  revert s. induction n as [| n IH]; intros [| c s]; cbn; try lia.
  specialize (IH s). lia.
Qed.

Lemma index_contains (sub s : string) :
  PyStr.contains sub s = true -> exists i, PyStr.index sub s = Some i.
Proof.
  induction s as [| c s IH]; cbn [PyStr.contains PyStr.index]; intro H.
  - rewrite orb_false_r in H. rewrite H. now exists 0.
  - destruct (String.prefix sub (String c s)); [ now exists 0 |].
    cbn [orb] in H. destruct (IH H) as [i ->]. now exists (S i).
Qed.

(** Once a line is kept, every later line is: the last kept entry is one
    line, so the test on its number of lines always holds. *)
Lemma relevant_step_kept (kept : list string) (line : string) :
  kept <> [] -> PyStr.count LF (last kept "") = 0 ->
  relevant_step kept line = (kept ++ [line])%list.
Proof.
  intros Hn Hl. unfold relevant_step.
  destruct (Rx.re_search relevant_re line); [ reflexivity |].
  rewrite (split_one_line _ Hl). destruct kept; [ now elim Hn | reflexivity ].
Qed.

Lemma fold_relevant_step_kept (lines : list string) : forall kept,
  kept <> [] -> PyStr.count LF (last kept "") = 0 ->
  Forall (fun l => PyStr.count LF l = 0) lines ->
  fold_left relevant_step lines kept = (kept ++ lines)%list.
Proof.
  induction lines as [| l lines IH]; intros kept Hn Hl H; cbn [fold_left].
  - now rewrite app_nil_r.
  - inversion H; subst. rewrite relevant_step_kept by assumption.
    rewrite IH; [ now rewrite <- app_assoc | now destruct kept
                | now rewrite last_last | assumption ].
Qed.

Lemma fold_relevant_step_first (lines : list string) :
  Forall (fun l => PyStr.count LF l = 0) lines ->
  fold_left relevant_step lines []
  = from_first (Rx.re_search relevant_re) lines.
Proof.
  induction lines as [| l lines IH]; intro H; [ reflexivity |].
  inversion H; subst. cbn [fold_left from_first]. unfold relevant_step at 2.
  destruct (Rx.re_search relevant_re l); cbn [List.length Nat.eqb negb andb].
  - cbn [app]. rewrite fold_relevant_step_kept;
      [ reflexivity | discriminate | assumption | assumption ].
  - now apply IH.
Qed.

(** X13: the first loop keeps the lines of the code from the first one that
    matches the pattern on, all of them: the window of five lines the
    code tests for never closes. *)
Theorem first_loop_keeps_from_first_match (full_code : string) :
  fold_left relevant_step (PyStr.split LF full_code) []
  = from_first (Rx.re_search relevant_re) (PyStr.split LF full_code).
Proof. apply fold_relevant_step_first, split_no_separator. Qed.

Lemma context_step_cases (full_code : string) (kept : list string)
    (changed_line : string) :
  context_step full_code (Some kept) changed_line = Some kept
  \/ exists entry,
       context_step full_code (Some kept) changed_line
       = Some (kept ++ [entry])%list
       /\ context_entry full_code entry.
Proof.
  unfold context_step.
  destruct (negb (PyStr.strip changed_line =? "")%string); cbn [andb];
    [| now left ].
  destruct (PyStr.contains changed_line full_code) eqn:E; [| now left ].
  destruct (index_contains _ _ E) as [idx ->]. right.
  eexists. split; [ reflexivity |].
  eexists. split; [ reflexivity |]. unfold PyStr.slice. split.
  - etransitivity; [ apply take_length | lia ].
  - exists (PyStr.take (idx - 200) full_code). eexists.
    rewrite <- (take_drop (idx - 200) full_code) at 1. f_equal.
    symmetry. apply take_drop.
Qed.

Lemma fold_context_step (full_code : string) (lines : list string) :
  forall kept,
  exists entries,
    fold_left (context_step full_code) lines (Some kept)
    = Some (kept ++ entries)%list
    /\ List.length entries <= List.length lines
    /\ Forall (context_entry full_code) entries.
Proof.
  induction lines as [| l lines IH]; intro kept.
  - exists []. rewrite app_nil_r. repeat split; [ cbn; lia | constructor ].
  - cbn [fold_left].
    destruct (context_step_cases full_code kept l) as [-> | [e [-> He]]].
    + destruct (IH kept) as [entries [-> [Hl Hf]]].
      exists entries. repeat split; [ cbn; lia | exact Hf ].
    + destruct (IH (kept ++ [e])%list) as [entries [-> [Hl Hf]]].
      exists (e :: entries). rewrite <- app_assoc.
      repeat split; [ cbn; lia | now constructor ].
Qed.

(** X14: the [try] block raises nothing on strings: a line is looked up with
    [index] only after [in] found it, so the [except] branch is never
    taken. *)
Theorem extract_relevant_code_never_falls_back
    (full_code changed_code : string) :
  exists result,
    extract_relevant_code_body full_code changed_code = Some result
    /\ extract_relevant_code full_code changed_code = result.
Proof.
  unfold extract_relevant_code, extract_relevant_code_body.
  destruct (fold_context_step full_code
              (firstn 10 (PyStr.split LF changed_code))
              (fold_left relevant_step (PyStr.split LF full_code) []))
    as [entries [-> _]].
  eexists. split; reflexivity.
Qed.

(** X15: the shape of the result: the lines of the code from the first match
    on, then at most ten context entries, each one the header followed by
    at most 400 characters that stand together in the code; the entries
    are joined by line feeds, and cut after the first 5000 of them. *)
Theorem extract_relevant_code_shape (full_code changed_code : string) :
  exists entries,
    extract_relevant_code full_code changed_code
    = PyStr.join NL
        (firstn 5000
           (from_first (Rx.re_search relevant_re) (PyStr.split LF full_code)
            ++ entries))
    /\ List.length entries <= 10
    /\ Forall (context_entry full_code) entries.
Proof.
  unfold extract_relevant_code, extract_relevant_code_body.
  rewrite fold_relevant_step_first by apply split_no_separator.
  destruct (fold_context_step full_code
              (firstn 10 (PyStr.split LF changed_code))
              (from_first (Rx.re_search relevant_re)
                 (PyStr.split LF full_code)))
    as [entries [-> [Hl Hf]]].
  exists entries. repeat split; [| exact Hf ].
  etransitivity; [ exact Hl |]. rewrite length_firstn. lia.
Qed.

Lemma context_step_unusable (full_code : string) (kept : list string)
    (changed_line : string) :
  PyStr.strip changed_line = "" \/ PyStr.contains changed_line full_code = false ->
  context_step full_code (Some kept) changed_line = Some kept.
Proof.
  unfold context_step. intros [-> | ->]; [ reflexivity |].
  now rewrite andb_false_r.
Qed.

Lemma fold_context_step_unusable (full_code : string) (lines : list string) :
  forall kept,
    Forall (fun l => PyStr.strip l = ""
                     \/ PyStr.contains l full_code = false) lines ->
    fold_left (context_step full_code) lines (Some kept) = Some kept.
Proof.
  induction lines as [| l lines IH]; intros kept H; [ reflexivity |].
  inversion H; subst. cbn [fold_left].
  rewrite context_step_unusable by assumption. now apply IH.
Qed.

Lemma Forall_firstn_of {A : Type} (P : A -> Prop) (n : nat) (l : list A) :
  Forall P l -> Forall P (firstn n l).
Proof.
  revert n. induction l as [| x l IH]; intros [| n] H; cbn [firstn];
    try constructor; inversion H; subst; [ assumption | now apply IH ].
Qed.

(** X16: with no original code there is nothing to extract: the result is
    empty whatever the changed code is. *)
Theorem extract_from_empty_code (changed_code : string) :
  extract_relevant_code "" changed_code = "".
Proof.
  unfold extract_relevant_code, extract_relevant_code_body.
  cbn [PyStr.split fold_left]. change (relevant_step [] "") with (@nil string).
  rewrite fold_context_step_unusable; [ reflexivity |].
  apply Forall_forall. intros l _.
  destruct l as [| c l]; [ now left | right; reflexivity ].
Qed.

Lemma join_cons2 (x y : string) (l : list string) :
  PyStr.join NL (x :: y :: l) = x ++ NL ++ PyStr.join NL (y :: l).
Proof. reflexivity. Qed.

Lemma join_right (a b : list string) :
  exists pre, PyStr.join NL (a ++ b) = pre ++ PyStr.join NL b.
Proof.
  induction a as [| x a IH]; [ now exists "" |].
  destruct IH as [pre IH]. cbn [app].
  destruct (a ++ b)%list as [| y l] eqn:E.
  - apply app_eq_nil in E as [-> ->]. exists x. cbn. now rewrite append_nil_r.
  - rewrite join_cons2, IH. exists (x ++ NL ++ pre).
    now rewrite !append_assoc.
Qed.

Lemma join_left (a b : list string) :
  exists post, PyStr.join NL (a ++ b) = PyStr.join NL a ++ post.
Proof.
  induction a as [| x a IH]; [ now exists (PyStr.join NL b) |].
  destruct IH as [post IH]. cbn [app].
  destruct a as [| y a].
  - cbn [app]. destruct b as [| z b].
    + exists "". cbn. now rewrite append_nil_r.
    + rewrite join_cons2. now eexists.
  - cbn [app] in *. rewrite !join_cons2, IH. exists post.
    now rewrite !append_assoc.
Qed.

Lemma from_first_suffix {A : Type} (f : A -> bool) (l : list A) :
  exists before, l = (before ++ from_first f l)%list.
Proof.
  induction l as [| x l [before IH]]; [ now exists [] |].
  cbn [from_first]. destruct (f x); [ now exists [] |].
  exists (x :: before). cbn [app]. now rewrite <- IH.
Qed.

(** X17: with no changed code to look up, the result is the code from the
    first line that matches the pattern on, cut after 5000 lines: a part
    of the code as it stands, nothing added. *)
Theorem extract_without_changed_code (full_code changed_code : string) :
  PyStr.strip changed_code = "" ->
  extract_relevant_code full_code changed_code
  = PyStr.join NL
      (firstn 5000
         (from_first (Rx.re_search relevant_re) (PyStr.split LF full_code)))
  /\ exists before after,
       full_code
       = before ++ extract_relevant_code full_code changed_code ++ after.
Proof.
  intro H.
  assert (E : extract_relevant_code full_code changed_code
              = PyStr.join NL
                  (firstn 5000
                     (from_first (Rx.re_search relevant_re)
                        (PyStr.split LF full_code)))).
  { unfold extract_relevant_code, extract_relevant_code_body.
    rewrite fold_relevant_step_first by apply split_no_separator.
    rewrite fold_context_step_unusable; [ reflexivity |].
    apply Forall_firstn_of. apply strip_empty, all_space_lines in H.
    eapply Forall_impl; [| exact H ]. intros l Hl. left.
    now apply strip_empty. }
  split; [ exact E |]. rewrite E.
  set (kept := from_first _ _).
  destruct (from_first_suffix (Rx.re_search relevant_re)
              (PyStr.split LF full_code)) as [skipped Hs].
  fold kept in Hs.
  destruct (join_right skipped kept) as [pre Hp].
  destruct (join_left (firstn 5000 kept) (skipn 5000 kept)) as [post Hq].
  rewrite firstn_skipn in Hq. exists pre, post.
  rewrite <- Hq, <- Hp, <- Hs. symmetry. apply join_split.
Qed.

Lemma extract_without_changed_code_witness :
  PyStr.strip "" = ""
  /\ extract_relevant_code ("x = 1" ++ NL ++ "import os" ++ NL ++ "y = 2") ""
     = "import os" ++ NL ++ "y = 2".
Proof.
  split; [ reflexivity |].
  exact (proj1 (extract_without_changed_code
                  ("x = 1" ++ NL ++ "import os" ++ NL ++ "y = 2") ""
                  eq_refl)).
Defined.











End ExtractRelevantCode.

(* ================================================================= *)
(** ** The lines the pattern of [extract_relevant_code] matches *)

Section RelevantLines.

(** Literal text, before a continuation that does not look back. *)
Lemma text_iff (lit : string) (k : option ascii -> string -> bool)
    (Hk : forall p p' s, k p s = k p' s) : forall prev s,
  Rx.text lit k prev s = true <-> exists r, s = lit ++ r /\ k None r = true.
Proof.
  induction lit as [| c lit IH]; intros prev s; cbn [Rx.text].
  - rewrite (Hk prev None). split; [ intro H; now exists s |].
    now intros [r [-> H]].
  - destruct s as [| d s].
    + split; [ discriminate | now intros [r [H _]] ].
    + rewrite andb_true_iff, IH, Ascii.eqb_eq. split.
      * intros [-> [r [-> H]]]. now exists r.
      * intros [r [E H]]. injection E as -> ->. split; [ reflexivity |].
        now exists r.
Qed.

Lemma text_ignores_prev (lit : string) (k : option ascii -> string -> bool)
    (Hk : forall p p' s, k p s = k p' s) : forall p p' s,
  Rx.text lit k p s = Rx.text lit k p' s.
Proof.
  induction lit as [| c lit IH]; intros p p' s; cbn [Rx.text];
    [ apply Hk |].
  now destruct s.
Qed.

(** [p+], before a continuation that does not look back. *)
Lemma some1_iff (p : ascii -> bool) (k : option ascii -> string -> bool)
    (Hk : forall q q' s, k q s = k q' s) : forall s,
  Rx.some1 p k s = true
  <-> exists a r,
        s = a ++ r /\ a <> "" /\ all_chars p a = true /\ k None r = true.
Proof.
  induction s as [| c s IH]; cbn [Rx.some1].
  - split; [ discriminate |]. intros [a [r [E [Hn _]]]].
    destruct a; [ now elim Hn | discriminate E ].
  - rewrite andb_true_iff, orb_true_iff, IH. split.
    + intros [Hc [[a [r [-> [Hn [Ha Hr]]]]] | H]].
      * exists (String c a), r. split; [ reflexivity |].
        split; [ discriminate |]. split; [| exact Hr ].
        cbn [all_chars]. now rewrite Hc, Ha.
      * exists (String c ""), s. split; [ reflexivity |].
        split; [ discriminate |]. split.
        -- cbn [all_chars]. now rewrite Hc.
        -- now rewrite (Hk None (Some c)).
    + intros [a [r [E [Hn [Ha Hr]]]]].
      destruct a as [| d a]; [ now elim Hn |]. injection E as -> ->.
      cbn [all_chars] in Ha. apply andb_true_iff in Ha as [Hd Ha].
      split; [ exact Hd |]. destruct a as [| e a].
      * right. cbn [append]. now rewrite (Hk (Some d) None).
      * left. exists (String e a), r. split; [ reflexivity |].
        split; [ discriminate |]. now split.
Qed.

Lemma all_dot_no_lf (a : string) :
  all_chars Rx.dot a = true <-> PyStr.count LF a = 0.
Proof.
  induction a as [| c a IH]; cbn [all_chars PyStr.count]; [ tauto |].
  unfold Rx.dot at 1. destruct (Ascii.eqb c LF); cbn [negb andb].
  - split; [ discriminate | lia ].
  - now rewrite IH.
Qed.

(** [p+] at the end of the pattern asks for one character. *)
Lemma some1_last (p : ascii -> bool) (s : string) :
  Rx.some1 p (fun _ _ => true) s = true
  <-> exists c r, s = String c r /\ p c = true.
Proof.
  destruct s as [| c s]; cbn [Rx.some1].
  - split; [ discriminate | now intros [c [r [H _]]] ].
  - rewrite orb_true_r, andb_true_r. split.
    + intro H. now exists c, s.
    + intros [d [r [E H]]]. now injection E as -> ->.
Qed.

Lemma dot_true (c : ascii) : Rx.dot c = true <-> c <> LF.
Proof.
  unfold Rx.dot. rewrite negb_true_iff. apply Ascii.eqb_neq.
Qed.

(** Past the start of the line the pattern matches nothing. *)
Lemma search_past_start (s : string) : forall c,
  Rx.search_from relevant_re (Some c) s = false.
Proof.
  induction s as [| d s IH]; intro c; cbn [Rx.search_from]; [ reflexivity |].
  now rewrite IH.
Qed.

Lemma relevant_search (line : string) :
  Rx.re_search relevant_re line
  = Rx.text "import " (fun _ => Rx.some1 Rx.dot (fun _ _ => true)) None line
    || (Rx.text "from "
          (fun _ => Rx.some1 Rx.dot
             (Rx.text " import "
                (fun _ => Rx.some1 Rx.dot (fun _ _ => true))))
          None line
        || (Rx.text "def "
              (fun _ => Rx.some1 PyStr.isword
                 (Rx.text "(" (fun _ _ => true)))
              None line
            || Rx.text "class "
                 (fun _ => Rx.some1 PyStr.isword
                    (Rx.text ":" (fun _ _ => true)))
                 None line)).
Proof.
  unfold Rx.re_search. destruct line as [| c l]; cbn [Rx.search_from].
  - reflexivity.
  - rewrite search_past_start, orb_false_r. reflexivity.
Qed.

Lemma word_then (lit close line : string) :
  Rx.text lit
    (fun _ => Rx.some1 PyStr.isword (Rx.text close (fun _ _ => true)))
    None line = true
  <-> exists w r,
        line = lit ++ w ++ close ++ r
        /\ w <> "" /\ all_chars PyStr.isword w = true.
Proof.
  rewrite text_iff by reflexivity. split.
  - intros [r [-> H]].
    apply some1_iff in H; [| intros; now apply text_ignores_prev ].
    destruct H as [w [r' [-> [Hn [Hw H]]]]].
    apply text_iff in H as [r'' [-> _]]; [| reflexivity ].
    now exists w, r''.
  - intros [w [r [-> [Hn Hw]]]]. eexists. split; [ reflexivity |].
    apply some1_iff; [ intros; now apply text_ignores_prev |].
    exists w. eexists. split; [ reflexivity |]. split; [ exact Hn |].
    split; [ exact Hw |]. apply text_iff; [ reflexivity |].
    now exists r.
Qed.

Lemma import_then (lit line : string) :
  Rx.text lit (fun _ => Rx.some1 Rx.dot (fun _ _ => true)) None line = true
  <-> exists c r, line = lit ++ String c r /\ c <> LF.
Proof.
  rewrite text_iff by reflexivity. split.
  - intros [r [-> H]]. apply some1_last in H as [c [r' [-> Hc]]].
    exists c, r'. split; [ reflexivity | now apply dot_true ].
  - intros [c [r [-> Hc]]]. eexists. split; [ reflexivity |].
    apply some1_last. exists c, r. split; [ reflexivity |].
    now apply dot_true.
Qed.

Lemma from_import (line : string) :
  Rx.text "from "
    (fun _ => Rx.some1 Rx.dot
       (Rx.text " import " (fun _ => Rx.some1 Rx.dot (fun _ _ => true))))
    None line = true
  <-> exists a c r,
        line = "from " ++ a ++ " import " ++ String c r
        /\ a <> "" /\ PyStr.count LF a = 0 /\ c <> LF.
Proof.
  rewrite text_iff by reflexivity. split.
  - intros [r [-> H]].
    apply some1_iff in H; [| intros; now apply text_ignores_prev ].
    destruct H as [a [r' [-> [Hn [Ha H]]]]].
    apply import_then in H as [c [r'' [-> Hc]]].
    exists a, c, r''. repeat split; try assumption.
    now apply all_dot_no_lf.
  - intros [a [c [r [-> [Hn [Ha Hc]]]]]]. eexists. split; [ reflexivity |].
    apply some1_iff; [ intros; now apply text_ignores_prev |].
    exists a. eexists. split; [ reflexivity |]. split; [ exact Hn |].
    split; [ now apply all_dot_no_lf |]. apply import_then. now exists c, r.
Qed.

(** X19: the lines [extract_relevant_code] looks for: [re.search] accepts a
    line exactly when it starts with "import " and one more character,
    with "from ", a non-empty text, " import " and one more character,
    with "def ", a name and an opening parenthesis, or with "class ", a
    name and a colon, where a name is made of word characters and the
    other characters are no line feeds.  So an indented definition and a
    class with base classes are not accepted. *)
Theorem relevant_line_iff (line : string) :
  Rx.re_search relevant_re line = true <-> relevant_line line.
Proof.
  rewrite relevant_search, !orb_true_iff. unfold relevant_line.
  now rewrite import_then, from_import, !word_then.
Qed.

End RelevantLines.

(* ================================================================= *)
(** ** The document and the file the application hands out *)

Section Application.

Lemma count_replace_char (c d : ascii) (s : string) :
  c <> d -> PyStr.count c (PyStr.replace_char c d s) = 0.
Proof.
  intro H. induction s as [| x s IH]; [ reflexivity |].
  cbn [PyStr.replace_char PyStr.count]. rewrite IH.
  destruct (Ascii.eqb_spec x c) as [-> | n].
  - apply not_eq_sym, Ascii.eqb_neq in H. now rewrite H.
  - apply Ascii.eqb_neq in n. now rewrite n.
Qed.

Lemma length_replace_char (c d : ascii) (s : string) :
  String.length (PyStr.replace_char c d s) = String.length s.
Proof. induction s as [| x s IH]; cbn; congruence. Qed.

Lemma count_append (c : ascii) (a b : string) :
  PyStr.count c (a ++ b) = PyStr.count c a + PyStr.count c b.
Proof. induction a as [| x a IH]; cbn [append PyStr.count]; lia. Qed.

Lemma get_replace_char (c d : ascii) (s : string) : forall i,
  String.get i (PyStr.replace_char c d s)
  = match String.get i s with
    | Some x => Some (if Ascii.eqb x c then d else x)
    | None => None
    end.
Proof.
  induction s as [| x s IH]; intro i; [ reflexivity |].
  destruct i as [| i]; [ reflexivity | apply IH ].
Qed.

(** X20: the name of the download has no space in it: it is the user story
    name, or "code_analysis" when there is none, with every space turned
    into an underscore and nothing else changed (character by character),
    followed by ".docx". *)
Theorem download_file_name_no_space (user_story_name : string) :
  PyStr.count " " (download_file_name user_story_name) = 0
  /\ exists stem,
       download_file_name user_story_name = stem ++ ".docx"
       /\ stem <> ""
       /\ String.length stem
          = String.length (if (user_story_name =? "")%string
                           then "code_analysis" else user_story_name)
       /\ PyStr.count "_" stem
          = PyStr.count "_" (if (user_story_name =? "")%string
                             then "code_analysis" else user_story_name)
            + PyStr.count " " user_story_name
       /\ (forall i,
             String.get i stem
             = match String.get i (if (user_story_name =? "")%string
                                   then "code_analysis"
                                   else user_story_name) with
               | Some x => Some (if Ascii.eqb x " " then "_"%char else x)
               | None => None
               end).
Proof.
  unfold download_file_name. split.
  - rewrite count_append, count_replace_char by discriminate. reflexivity.
  - eexists. split; [ reflexivity |].
    split; [| split; [| split ] ].
    + destruct (String.eqb_spec user_story_name "") as [-> | Hn];
        [ discriminate |].
      destruct user_story_name; [ now elim Hn | discriminate ].
    + apply length_replace_char.
    + destruct (String.eqb_spec user_story_name "") as [-> | Hn];
        [ reflexivity |].
      clear Hn. induction user_story_name as [| x s IH]; [ reflexivity |].
      cbn [PyStr.replace_char PyStr.count]. rewrite IH.
      destruct (Ascii.eqb_spec x " ") as [-> | n]; [ cbn; lia |].
      destruct (Ascii.eqb x "_"); lia.
    + apply get_replace_char.
Qed.

Lemma strip_nonblank_nonempty (s : string) :
  (PyStr.strip s =? "")%string = false -> (s =? "")%string = false.
Proof. destruct s; [ discriminate | reflexivity ]. Qed.

(** X21: the document of the application: first the heading
    "User Story Name" and a paragraph that holds the name (no run for an
    empty name); then, when the description is not empty, the heading
    "User Story Description" and a paragraph that holds it; then, when
    the instructions are not blank, the heading
    "Additional Context & Instructions" and a paragraph that holds them;
    then the blocks of the analysis as a conversion on a new generator
    gives them.  The headings of the form are at level 2 and never enter
    the TOC, which holds the entries of the analysis only; every heading
    of the document has a level between 1 and 3. *)
Theorem build_document_blocks
    (user_story_name user_story_description additional_prompt result : string) :
  let g := build_document user_story_name user_story_description
             additional_prompt result in
  headings g = headings (markdown_to_word init result)
  /\ Forall level_ok (doc g)
  /\ doc g
     = (Heading 2 "User Story Name"
        :: Paragraph Normal
             (if (user_story_name =? "")%string then []
              else [mkRun user_story_name false])
        :: (if (user_story_description =? "")%string then []
            else [Heading 2 "User Story Description";
                  Paragraph Normal [mkRun user_story_description false]])
        ++ (if (PyStr.strip additional_prompt =? "")%string then []
            else [Heading 2 "Additional Context & Instructions";
                  Paragraph Normal [mkRun additional_prompt false]])
        ++ doc (markdown_to_word init result))%list
  /\ exists form,
       doc g = (Heading 2 "User Story Name" :: form
                ++ doc (markdown_to_word init result))%list
       /\ Forall (fun b => match b with
                           | Heading level _ => level = 2
                           | Paragraph style _ => style = Normal
                           end) form
       /\ List.length form
          = 1 + (if (user_story_description =? "")%string then 0 else 2)
            + (if (PyStr.strip additional_prompt =? "")%string
               then 0 else 2).
Proof.
  cbv zeta.
  assert (Hl : Forall level_ok (doc (markdown_to_word init result))).
  { unfold markdown_to_word. apply fold_process_section_level_ok.
    constructor. }
  assert (E : build_document user_story_name user_story_description
                additional_prompt result
              = {| doc :=
                     (Heading 2 "User Story Name"
                      :: Paragraph Normal
                           (if (user_story_name =? "")%string then []
                            else [mkRun user_story_name false])
                      :: (if (user_story_description =? "")%string then []
                          else [Heading 2 "User Story Description";
                                Paragraph Normal
                                  [mkRun user_story_description false]])
                      ++ (if (PyStr.strip additional_prompt =? "")%string
                          then []
                          else [Heading 2 "Additional Context & Instructions";
                                Paragraph Normal
                                  [mkRun additional_prompt false]])
                      ++ doc (markdown_to_word init result))%list;
                   headings := headings (markdown_to_word init result) |}).
  { unfold build_document. rewrite markdown_to_word_extend.
    destruct (user_story_description =? "")%string eqn:Ed;
      destruct (PyStr.strip additional_prompt =? "")%string eqn:Ea;
      unfold add_text_paragraph, add_paragraph, add_heading, add_run,
        extend;
      cbn [negb doc headings init app];
      try rewrite (strip_nonblank_nonempty _ Ea);
      try rewrite Ed; reflexivity. }
  rewrite E. cbn [doc headings].
  split; [ reflexivity |]. split; [| split; [ reflexivity |] ].
  - constructor; [ cbn; lia |]. constructor; [ exact I |].
    apply Forall_app. split.
    + destruct (user_story_description =? "")%string;
        repeat (constructor; try (cbn; lia)).
    + apply Forall_app. split; [| exact Hl ].
      destruct (PyStr.strip additional_prompt =? "")%string;
        repeat (constructor; try (cbn; lia)).
  - exists (Paragraph Normal
              (if (user_story_name =? "")%string then []
               else [mkRun user_story_name false])
            :: (if (user_story_description =? "")%string then []
                else [Heading 2 "User Story Description";
                      Paragraph Normal [mkRun user_story_description false]])
            ++ (if (PyStr.strip additional_prompt =? "")%string then []
                else [Heading 2 "Additional Context & Instructions";
                      Paragraph Normal [mkRun additional_prompt false]]))%list.
    split; [ cbn [app]; now rewrite <- app_assoc |].
    destruct (user_story_description =? "")%string;
      destruct (PyStr.strip additional_prompt =? "")%string;
      (split; [ repeat constructor | reflexivity ]).
Qed.

End Application.
